(** * RestyAI: the sleep-analysis core, embedded and verified

    A shallow embedding of [utils/data_processor.py], [utils/analyzer.py]
    and [utils/disorder_detector.py].

    The Python code works on pandas data frames.  A frame is modelled as
    the length of its index together with a finite map from column names
    to typed columns ([Series]); a statement that assigns a column
    threads the frame explicitly, and a call that can raise returns a
    [result].

    Numbers.  A float64 is modelled by the rational it denotes, or by
    [NaN]: arithmetic is exact, rounding to 53 bits is not modelled, and
    a missing timestamp (NaT) does not occur in a datetime column.  The
    functions of pandas and scipy that the repository calls but does not
    define are either written out on this exact model (mean, std,
    rolling mean, comparisons, boolean indexing) or, where their value
    is not a rational function of the data or depends on the installed
    version, taken as section variables (square root, number formatting,
    the timestamp parser, scipy's sample statistics). *)

From Stdlib Require Import ZArith QArith Qround Qabs Lqa Lia List Bool String Ascii.
From Stdlib Require Import Floats.SpecFloat.
From stdpp Require Import base option list gmap strings pretty.

Set Default Proof Using "Type".
Local Open Scope Q_scope.

(** ** Floating-point numbers *)

Inductive float64 : Type :=
| F (q : Q)
| NaN.

(** Python and numpy comparisons: every comparison with NaN is false. *)
Definition Qltb (x y : Q) : bool := negb (Qle_bool y x).

Definition fltb (x y : float64) : bool :=
  match x, y with F a, F b => Qltb a b | _, _ => false end.
Definition fleb (x y : float64) : bool :=
  match x, y with F a, F b => Qle_bool a b | _, _ => false end.
Definition fgtb (x y : float64) : bool := fltb y x.
Definition fgeb (x y : float64) : bool := fleb y x.

Definition fmap1 (f : Q -> Q) (x : float64) : float64 :=
  match x with F a => F (f a) | NaN => NaN end.
Definition fmap2 (f : Q -> Q -> Q) (x y : float64) : float64 :=
  match x, y with F a, F b => F (f a b) | _, _ => NaN end.
Definition fadd := fmap2 Qplus.
Definition fsub := fmap2 Qminus.
Definition fmul := fmap2 Qmult.
Definition fdiv := fmap2 Qdiv.

(** Equality of float64 values as numbers ([Q] is a setoid); two NaN
    results are the same sentinel. *)
Definition feq (x y : float64) : Prop :=
  match x, y with
  | F a, F b => a == b
  | NaN, NaN => True
  | _, _ => False
  end.

Definition is_nan (x : float64) : bool :=
  match x with NaN => true | F _ => false end.

Definition of_nat (n : nat) : Q := inject_Z (Z.of_nat n).
Definition of_Z (z : Z) : float64 := F (inject_Z z).

(** Python's [min(a, b)]: the first argument unless the second is
    smaller. *)
Definition py_min (a b : Q) : Q := if Qltb b a then b else a.

(** ** Exceptions and results *)

Inductive exn : Type :=
| KeyError (key : string)
| ValueError (msg : string)
| TypeError
| AttributeError
| ParserError (text : string).

Inductive result (A : Type) : Type :=
| Ok (a : A)
| Raise (e : exn).
Arguments Ok {A} a.
Arguments Raise {A} e.

Global Instance result_ret : MRet result := fun A a => Ok a.
Global Instance result_bind : MBind result := fun A B f m =>
  match m with Ok a => f a | Raise e => Raise e end.

(** [returns m P]: the call returns (raises nothing) and its value
    satisfies [P]. *)
Definition returns {A} (m : result A) (P : A -> Prop) : Prop :=
  match m with Ok a => P a | Raise _ => False end.

Definition raises {A} (m : result A) : bool :=
  match m with Ok _ => false | Raise _ => true end.

(** ** Series and data frames *)

Inductive Series : Type :=
| ObjectS (l : list string)     (* dtype object: text, as read from a CSV *)
| DatetimeS (l : list Z)        (* datetime64[ns]: nanoseconds since the epoch *)
| TimedeltaS (l : list Z)       (* timedelta64[ns]: nanoseconds *)
| NumS (l : list float64).      (* int64 and float64 columns *)

Definition series_len (s : Series) : nat :=
  match s with
  | ObjectS l => length l
  | DatetimeS l => length l
  | TimedeltaS l => length l
  | NumS l => length l
  end.

Record DataFrame : Type := {
  index_len : nat;                      (* len(df) *)
  columns : gmap string Series
}.

(** Every column of a frame is as long as the index. *)
Definition well_formed (df : DataFrame) : Prop :=
  forall c s, columns df !! c = Some s -> series_len s = index_len df.

(** [df[c]] *)
Definition getitem (df : DataFrame) (c : string) : result Series :=
  match columns df !! c with
  | Some s => Ok s
  | None => Raise (KeyError c)
  end.

(** [df[c] = s], for a series [s] on the index of [df] *)
Definition setitem (c : string) (s : Series) (df : DataFrame) : DataFrame :=
  {| index_len := index_len df; columns := <[c := s]> (columns df) |}.

(** [s < x], [s >= x] for a scalar number [x]: a boolean mask. Text and
    time columns do not compare with a number. *)
Definition series_cmp (cmp : float64 -> float64 -> bool) (s : Series) (x : float64)
  : result (list bool) :=
  match s with
  | NumS l => Ok (map (fun v => cmp v x) l)
  | _ => Raise TypeError
  end.
Definition series_lt := series_cmp fltb.
Definition series_ge := series_cmp fgeb.

(** [m1 & m2] *)
Definition mask_and (m1 m2 : list bool) : list bool :=
  map (fun p => andb (fst p) (snd p)) (combine m1 m2).

(** [len(df[mask])]: the rows a boolean mask selects *)
Definition len_where (mask : list bool) : nat := length (filter (fun b => b = true) mask).

(** [s.dt.hour]: hour of day of each timestamp *)
Definition ns_per_hour : Z := 3600 * 1000000000.
Definition hour_of (t : Z) : Z := (t / ns_per_hour) mod 24.

Definition dt_hour (s : Series) : result Series :=
  match s with
  | DatetimeS l => Ok (NumS (map (fun t => of_Z (hour_of t)) l))
  | _ => Raise AttributeError
  end.

(** *** Reductions ([skipna=True], so NaN entries are left out) *)

Definition finite (l : list float64) : list Q :=
  omap (fun v => match v with F q => Some q | NaN => None end) l.

Definition Qsum (l : list Q) : Q := foldr Qplus 0 l.

Definition Qmean (l : list Q) : Q := Qsum l / of_nat (length l).

(** [Series.mean()] of a numeric column: NaN when nothing is left. *)
Definition mean_values (l : list float64) : float64 :=
  match finite l with
  | [] => NaN
  | xs => F (Qmean xs)
  end.

(** [Series.var()] with the default [ddof=1]: NaN for fewer than two
    values. *)
Definition var_values (l : list float64) : float64 :=
  let xs := finite l in
  if (length xs <=? 1)%nat then NaN
  else
    let avg := Qmean xs in
    F (Qsum (map (fun x => (avg - x) * (avg - x)) xs) / (of_nat (length xs) - 1)).

Definition mean (s : Series) : result float64 :=
  match s with
  | NumS l => Ok (mean_values l)
  | _ => Raise TypeError
  end.

Section Std.
(** The square root of the numeric library. *)
Variable sqrt : Q -> Q.

Definition std_values (l : list float64) : float64 := fmap1 sqrt (var_values l).

(** [Series.std()] *)
Definition std (s : Series) : result float64 :=
    match s with
    | NumS l => Ok (std_values l)
    | _ => Raise TypeError
    end.
End Std.

(** *** Rolling mean ([Series.rolling(window, min_periods).mean()])

    pandas keeps the number and the sum of the values in the window
    and, from one row to the next, removes the values that leave it and
    adds the ones that enter it. *)

Record mean_state : Type := { nobs : nat; sum_x : Q }.

Definition add_mean (st : mean_state) (val : float64) : mean_state :=
  match val with
  | F x => {| nobs := S (nobs st); sum_x := sum_x st + x |}
  | NaN => st
  end.

Definition remove_mean (st : mean_state) (val : float64) : mean_state :=
  match val with
  | F x => {| nobs := (nobs st - 1)%nat; sum_x := sum_x st - x |}
  | NaN => st
  end.

Definition calc_mean (minp : nat) (st : mean_state) : float64 :=
  if (minp <=? nobs st)%nat && (0 <? nobs st)%nat
  then F (sum_x st / of_nat (nobs st))
  else NaN.

(** The window of row [i] is [values[window_start i : window_end i]]. *)
Definition window_start (window i : nat) : nat := (S i - window)%nat.
Definition window_end (i : nat) : nat := S i.

(** [l[a:b]] *)
Definition slice {A} (l : list A) (a b : nat) : list A := take (b - a) (drop a l).

Fixpoint roll_mean_rows (values : list float64) (window minp : nat)
    (rows : nat) (i : nat) (st : mean_state) : list float64 :=
  match rows with
  | O => []
  | S rows' =>
    let s := window_start window i in
    let e := window_end i in
    let st :=
      if (i =? 0)%nat || (window_end (i - 1) <=? s)%nat
      then (* setup *)
        foldl add_mean {| nobs := 0; sum_x := 0 |} (slice values s e)
      else
        (* calculate deletes *)
        let st := foldl remove_mean st (slice values (window_start window (i - 1)) s) in
        (* calculate adds *)
        foldl add_mean st (slice values (window_end (i - 1)) e) in
    calc_mean minp st :: roll_mean_rows values window minp rows' (S i) st
  end.

Definition roll_mean (window minp : nat) (values : list float64) : list float64 :=
  roll_mean_rows values window minp (length values) 0 {| nobs := 0; sum_x := 0 |}.

Definition rolling_mean (window minp : nat) (s : Series) : result Series :=
  match s with
  | NumS l => Ok (NumS (roll_mean window minp l))
  | _ => Raise TypeError
  end.

(** *** Time arithmetic *)

Definition ns_per_second : Z := 1000000000.
Definition ns_per_day : Z := 24 * ns_per_hour.

(** [a - b] for two datetime columns on the same index *)
Definition series_sub (a b : Series) : result Series :=
  match a, b with
  | DatetimeS x, DatetimeS y => Ok (TimedeltaS (zip_with Z.sub x y))
  | _, _ => Raise TypeError
  end.

(** [s.dt.total_seconds()] *)
Definition dt_total_seconds (s : Series) : result Series :=
  match s with
  | TimedeltaS l => Ok (NumS (map (fun ns => F (inject_Z ns / inject_Z ns_per_second)) l))
  | _ => Raise AttributeError
  end.

(** [s / x] for a number [x] *)
Definition series_div (s : Series) (x : Q) : result Series :=
  match s with
  | NumS l => Ok (NumS (map (fun v => fdiv v (F x)) l))
  | _ => Raise TypeError
  end.

(** [s.dt.normalize()]: midnight of the same day *)
Definition dt_normalize (s : Series) : result Series :=
  match s with
  | DatetimeS l => Ok (DatetimeS (map (fun t => t - t mod ns_per_day)%Z l))
  | _ => Raise AttributeError
  end.

(** [s + pd.Timedelta(hours=h)] *)
Definition add_hours (s : Series) (h : Z) : result Series :=
  match s with
  | DatetimeS l => Ok (DatetimeS (map (fun t => t + h * ns_per_hour)%Z l))
  | _ => Raise TypeError
  end.

(** [s.dt.day_name()]; 1970-01-01 was a Thursday. *)
Definition day_name (t : Z) : string :=
  match ((t / ns_per_day + 3) mod 7)%Z with
  | 0%Z => "Monday" | 1%Z => "Tuesday" | 2%Z => "Wednesday" | 3%Z => "Thursday"
  | 4%Z => "Friday" | 5%Z => "Saturday" | _ => "Sunday"
  end.

Definition dt_day_name (s : Series) : result Series :=
  match s with
  | DatetimeS l => Ok (ObjectS (map day_name l))
  | _ => Raise AttributeError
  end.

(** [s.between(lo, hi)], both ends included *)
Definition between (s : Series) (lo hi : Q) : result (list bool) :=
  match s with
  | NumS l => Ok (map (fun v => fleb (F lo) v && fleb v (F hi)) l)
  | _ => Raise TypeError
  end.

(** [mask.all()] *)
Definition all (mask : list bool) : bool := forallb (fun b => b) mask.

(** ** Statements on a frame

    A statement runs on the current frame and leaves a frame behind,
    also when it raises: what was assigned before the exception stays
    assigned. *)

Definition Stmt (A : Type) : Type := DataFrame -> DataFrame * result A.

Global Instance stmt_ret : MRet Stmt := fun A a df => (df, Ok a).
Global Instance stmt_bind : MBind Stmt := fun A B f m df =>
  match m df with
  | (df', Ok a) => f a df'
  | (df', Raise e) => (df', Raise e)
  end.

Definition raise {A} (e : exn) : Stmt A := fun df => (df, Raise e).
Definition lift {A} (m : result A) : Stmt A := fun df => (df, m).
Definition load (c : string) : Stmt Series := fun df => (df, getitem df c).
Definition store (c : string) (s : Series) : Stmt unit := fun df => (setitem c s df, Ok tt).
Definition column_names : Stmt (list string) := fun df => (df, Ok (elements (dom (columns df)))).

(** * The feature processor ([utils/data_processor.py]) *)

Module Processor.

Section WithParser.
(** pandas' reading of one text cell, and of one number, as a timestamp
    ([None]: the cell does not parse). *)
Variable parse_datetime : string -> option Z.
Variable number_datetime : float64 -> option Z.

Definition parse_cells {A} (parse : A -> option Z) (show : A -> string) (l : list A)
  : result (list Z) :=
  foldr (fun x acc =>
           match parse x with
           | Some t => ts ← acc; Ok (t :: ts)
           | None => Raise (ParserError (show x))
           end) (Ok []) l.

(** [pd.to_datetime(s)] *)
Definition to_datetime (s : Series) : result Series :=
  match s with
  | DatetimeS l => Ok (DatetimeS l)
  | ObjectS l => ts ← parse_cells parse_datetime id l; Ok (DatetimeS ts)
  | NumS l => ts ← parse_cells number_datetime (fun _ => "") l; Ok (DatetimeS ts)
  | TimedeltaS _ => Raise TypeError
  end.

(** [df[c] = pd.to_datetime(df[c])] *)
Definition convert (c : string) : Stmt unit :=
  s ← load c;
  t ← lift (to_datetime s);
  store c t.

Definition required_columns : list string := ["date"; "sleep_start"; "sleep_end"; "quality"].

(** [validate_data(df)]: the frame it leaves behind and its outcome. *)
Definition validate_data : Stmt bool :=
  names ← column_names;
  (* Check for required columns *)
  if negb (forallb (fun col => bool_decide (col ∈ names)) required_columns)
  then raise (ValueError
    "Missing required columns. Please ensure your CSV contains: date, sleep_start, sleep_end, quality")
  else
    (* Convert date columns *)
    convert "date";;
    convert "sleep_start";;
    convert "sleep_end";;
    (* Validate quality scores *)
    quality ← load "quality";
    in_range ← lift (between quality 0 100);
    if negb (all in_range)
    then raise (ValueError "Sleep quality scores must be between 0 and 100")
    else mret true.

Definition process_statements : Stmt unit :=
  (* Convert datetime columns *)
  convert "date";;
  convert "sleep_start";;
  convert "sleep_end";;
  (* Calculate sleep duration *)
  sleep_end ← load "sleep_end";
  sleep_start ← load "sleep_start";
  asleep ← lift (series_sub sleep_end sleep_start);
  seconds ← lift (dt_total_seconds asleep);
  duration ← lift (series_div seconds 3600);
  store "duration" duration;;
  (* Calculate sleep latency (assuming ideal bedtime is 22:00) *)
  date ← load "date";
  midnight ← lift (dt_normalize date);
  ideal_bedtime ← lift (add_hours midnight 22);
  sleep_start ← load "sleep_start";
  late ← lift (series_sub sleep_start ideal_bedtime);
  seconds ← lift (dt_total_seconds late);
  latency ← lift (series_div seconds 60);
  store "latency" latency;;
  (* Extract day of week *)
  date ← load "date";
  names ← lift (dt_day_name date);
  store "day_of_week" names;;
  (* Calculate rolling averages *)
  duration ← load "duration";
  rolling ← lift (rolling_mean 7 1 duration);
  store "rolling_avg_duration" rolling;;
  quality ← load "quality";
  rolling ← lift (rolling_mean 7 1 quality);
  store "rolling_avg_quality" rolling.

(** [process_sleep_data(df)]: the statements run on a copy of [df], which
    is what the function returns. *)
Definition process_sleep_data (df : DataFrame) : result DataFrame :=
  let processed_df := df in   (* df.copy() *)
  match process_statements processed_df with
  | (processed_df, Ok _) => Ok processed_df
  | (_, Raise e) => Raise e
  end.

End WithParser.

End Processor.

(** * The statistics engine ([utils/analyzer.py]) *)

Module Analyzer.

(** *** More reductions of pandas *)

Fixpoint insert_sorted (x : Q) (l : list Q) : list Q :=
  match l with
  | [] => [x]
  | y :: l' => if Qle_bool x y then x :: l else y :: insert_sorted x l'
  end.
Definition sorted_values (l : list Q) : list Q := foldr insert_sorted [] l.

(** [Series.median()] *)
Definition median_values (l : list float64) : float64 :=
  let xs := sorted_values (finite l) in
  let n := length xs in
  match n with
  | O => NaN
  | _ =>
    if Nat.even n
    then F ((nth (n / 2 - 1) xs 0 + nth (n / 2) xs 0) / 2)
    else F (nth (n / 2) xs 0)
  end.

Definition Qmin' (a b : Q) : Q := if Qle_bool a b then a else b.
Definition Qmax' (a b : Q) : Q := if Qle_bool a b then b else a.

(** [Series.min()], [Series.max()] *)
Definition min_values (l : list float64) : float64 :=
  match finite l with [] => NaN | x :: xs => F (foldl Qmin' x xs) end.
Definition max_values (l : list float64) : float64 :=
  match finite l with [] => NaN | x :: xs => F (foldl Qmax' x xs) end.

Definition numeric (s : Series) : result (list float64) :=
  match s with NumS l => Ok l | _ => Raise TypeError end.

(** [s.dt.hour] as integers *)
Definition dt_hours (s : Series) : result (list Z) :=
  match s with DatetimeS l => Ok (map hour_of l) | _ => Raise AttributeError end.

Definition occurrences (x : Z) (l : list Z) : nat := length (filter (fun y => y = x) l).

(** [Series.mode()[0]]: the smallest of the most frequent values; the
    mode of an empty column is empty and has no entry 0. *)
Definition mode0 (l : list Z) : result Z :=
  match l with
  | [] => Raise (KeyError "0")
  | x :: l' =>
    Ok (foldl (fun best y =>
                 if (occurrences best l <? occurrences y l)%nat then y
                 else if (occurrences best l =? occurrences y l)%nat && (y <? best)%Z then y
                 else best) x l')
  end.

(** [calculate_sleep_metrics] *)
Record Metrics : Type := {
  avg_duration : float64;
  efficiency : float64;
  avg_latency : float64;
  quality_score : float64;
  consistency : float64
}.

(** The entries of [perform_statistical_analysis]. *)
Record DurationSummary : Type := {
  Average_Sleep : string;
  Median_Sleep : string;
  Standard_Deviation : string;
  Minimum : string;
  Maximum : string;
  Range : string
}.
Record DistributionAnalysis : Type := {
  Skewness : string;
  Kurtosis : string;
  Is_Normal_Distribution : string
}.
Record QualitySummary : Type := {
  Average_Quality : string;
  Median_Quality : string;
  Quality_Variation : string;
  Best_Quality : string;
  Lowest_Quality : string
}.
Record QualityDistribution : Type := {
  Excellent : string;    (* 'Excellent (90-100)' *)
  Good : string;         (* 'Good (80-89)' *)
  Fair : string;         (* 'Fair (70-79)' *)
  Poor : string          (* 'Poor (<70)' *)
}.
Record TimingAnalysis : Type := {
  Average_Bedtime : string;
  Most_Common_Bedtime : string;
  Average_Wake_Time : string;
  Sleep_Schedule_Consistency : string
}.
Record WeeklyPatterns : Type := {
  Best_Sleep_Day : string;
  Longest_Sleep_Day : string;
  Most_Consistent_Day : string
}.
Record Interpretation : Type := {
  Sleep_Duration_Is : string;
  Sleep_Quality_Is : string;
  Schedule_Consistency_Is : string
}.
Record Analysis : Type := {
  Duration_Summary_Statistics : DurationSummary;
  Duration_Distribution_Analysis : DistributionAnalysis;
  Quality_Summary_Statistics : QualitySummary;
  Quality_Distribution : QualityDistribution;
  Timing_Analysis : TimingAnalysis;
  Weekly_Patterns : WeeklyPatterns;
  Duration_vs_Quality : string;
  Interpretations : Interpretation
}.

(** [get_duration_interpretation] *)
Definition get_duration_interpretation (avg_duration : float64) : string :=
  if fgeb avg_duration (F 8) then "Optimal sleep duration achieved"
  else if fgeb avg_duration (F 7) then "Good sleep duration, but could be improved"
  else if fgeb avg_duration (F 6) then "Below recommended sleep duration"
  else "Significantly below recommended sleep duration".

(** [get_quality_interpretation] *)
Definition get_quality_interpretation (avg_quality : float64) : string :=
  if fgeb avg_quality (F 90) then "Excellent sleep quality"
  else if fgeb avg_quality (F 80) then "Good sleep quality"
  else if fgeb avg_quality (F 70) then "Fair sleep quality"
  else "Poor sleep quality, improvement needed".

(** [get_consistency_interpretation] *)
Definition get_consistency_interpretation (time_std : float64) : string :=
  if fltb time_std (F 0.5) then "Very consistent sleep schedule"
  else if fltb time_std (F 1) then "Moderately consistent sleep schedule"
  else if fltb time_std (F 1.5) then "Somewhat inconsistent sleep schedule"
  else "Highly irregular sleep schedule".

(** [f"{len(df[mask])} nights"] *)
Definition nights_where (mask : list bool) : string := pretty (len_where mask) +:+ " nights".

(** The 'Quality Distribution' dictionary. *)
Definition quality_distribution (df : DataFrame) : result QualityDistribution :=
  quality ← getitem df "quality";
  excellent ← series_ge quality (F 90);
  ge80 ← series_ge quality (F 80);
  lt90 ← series_lt quality (F 90);
  ge70 ← series_ge quality (F 70);
  lt80 ← series_lt quality (F 80);
  poor ← series_lt quality (F 70);
  Ok {| Excellent := nights_where excellent;
        Good := nights_where (mask_and ge80 lt90);
        Fair := nights_where (mask_and ge70 lt80);
        Poor := nights_where poor |}.

Section WithLibrary.
(** The square root of the numeric library, and Python's fixed-point
    format [f"{x:.<digits>f}"]. *)
Variable sqrt : Q -> Q.
Variable format_f : nat -> float64 -> string.
(** scipy: [stats.skew], [stats.kurtosis] and the p-value
    [stats.normaltest(...)[1]] of a column. *)
Variable skew kurtosis normaltest_pvalue : list float64 -> result float64.
(** pandas: [df.groupby(by)[col].mean().idxmax()],
    [df.groupby(by)[col].std().idxmin()] and [a.corr(b)]. *)
Variable groupby_mean_idxmax groupby_std_idxmin : Series -> Series -> result string.
Variable corr : list float64 -> list float64 -> float64.

Definition calculate_sleep_metrics (df : DataFrame) : result Metrics :=
  duration ← getitem df "duration";
  avg ← mean duration;
  latency ← getitem df "latency";
  avg_lat ← mean latency;
  quality ← getitem df "quality";
  avg_q ← mean quality;
  sd ← std sqrt duration;
  Ok {| avg_duration := avg;
        efficiency := fmul (fdiv avg (F 8)) (F 100);   (* Assuming 8 hours is ideal *)
        avg_latency := avg_lat;
        quality_score := avg_q;
        consistency := fsub (F 100) (fmul sd (F 10)) |}.

(** The statistics of [perform_statistical_analysis] that rest on a
    standard deviation, before they are formatted. *)
Definition duration_std (df : DataFrame) : result float64 :=
  duration ← getitem df "duration"; std sqrt duration.

Definition duration_skewness (df : DataFrame) : result float64 :=
  duration ← getitem df "duration"; values ← numeric duration; skew values.

Definition duration_kurtosis (df : DataFrame) : result float64 :=
  duration ← getitem df "duration"; values ← numeric duration; kurtosis values.

Definition is_normal_distribution (df : DataFrame) : result string :=
  duration ← getitem df "duration";
  values ← numeric duration;
  p ← normaltest_pvalue values;
  Ok (if fgtb p (F 0.05) then "Yes" else "No").

Definition bedtime_std (df : DataFrame) : result float64 :=
  sleep_start ← getitem df "sleep_start"; hours ← dt_hour sleep_start; std sqrt hours.

Definition sleep_schedule_consistency (df : DataFrame) : result float64 :=
  sd ← bedtime_std df; Ok (fsub (F 100) (fmul sd (F 10))).

Definition duration_summary (df : DataFrame) : result DurationSummary :=
  duration ← getitem df "duration";
  values ← numeric duration;
  sd ← duration_std df;
  Ok {| Average_Sleep := format_f 2 (mean_values values) +:+ " hours";
        Median_Sleep := format_f 2 (median_values values) +:+ " hours";
        Standard_Deviation := format_f 2 sd +:+ " hours";
        Minimum := format_f 2 (min_values values) +:+ " hours";
        Maximum := format_f 2 (max_values values) +:+ " hours";
        Range := format_f 2 (fsub (max_values values) (min_values values)) +:+ " hours" |}.

Definition distribution_analysis (df : DataFrame) : result DistributionAnalysis :=
  sk ← duration_skewness df;
  ku ← duration_kurtosis df;
  normal ← is_normal_distribution df;
  Ok {| Skewness := format_f 2 sk;
        Kurtosis := format_f 2 ku;
        Is_Normal_Distribution := normal |}.

Definition quality_summary (df : DataFrame) : result QualitySummary :=
  quality ← getitem df "quality";
  values ← numeric quality;
  Ok {| Average_Quality := format_f 1 (mean_values values) +:+ "/100";
        Median_Quality := format_f 1 (median_values values) +:+ "/100";
        Quality_Variation := format_f 1 (std_values sqrt values);
        Best_Quality := format_f 1 (max_values values) +:+ "/100";
        Lowest_Quality := format_f 1 (min_values values) +:+ "/100" |}.

Definition timing_analysis (df : DataFrame) : result TimingAnalysis :=
  sleep_start ← getitem df "sleep_start";
  start_hours ← dt_hours sleep_start;
  common ← mode0 start_hours;
  sleep_end ← getitem df "sleep_end";
  end_hours ← dt_hours sleep_end;
  schedule ← sleep_schedule_consistency df;
  Ok {| Average_Bedtime := format_f 1 (mean_values (map of_Z start_hours)) +:+ ":00";
        Most_Common_Bedtime := pretty common +:+ ":00";
        Average_Wake_Time := format_f 1 (mean_values (map of_Z end_hours)) +:+ ":00";
        Sleep_Schedule_Consistency := format_f 1 schedule +:+ "%" |}.

Definition weekly_patterns (df : DataFrame) : result WeeklyPatterns :=
  day_of_week ← getitem df "day_of_week";
  quality ← getitem df "quality";
  best ← groupby_mean_idxmax day_of_week quality;
  duration ← getitem df "duration";
  longest ← groupby_mean_idxmax day_of_week duration;
  steady ← groupby_std_idxmin day_of_week duration;
  Ok {| Best_Sleep_Day := best; Longest_Sleep_Day := longest; Most_Consistent_Day := steady |}.

Definition perform_statistical_analysis (df : DataFrame) : result Analysis :=
  summary ← duration_summary df;
  distribution ← distribution_analysis df;
  qsummary ← quality_summary df;
  qdistribution ← quality_distribution df;
  timing ← timing_analysis df;
  weekly ← weekly_patterns df;
  duration ← getitem df "duration";
  durations ← numeric duration;
  quality ← getitem df "quality";
  qualities ← numeric quality;
  sd ← bedtime_std df;
  Ok {| Duration_Summary_Statistics := summary;
        Duration_Distribution_Analysis := distribution;
        Quality_Summary_Statistics := qsummary;
        Quality_Distribution := qdistribution;
        Timing_Analysis := timing;
        Weekly_Patterns := weekly;
        Duration_vs_Quality := format_f 2 (corr durations qualities);
        Interpretations :=
          {| Sleep_Duration_Is := get_duration_interpretation (mean_values durations);
             Sleep_Quality_Is := get_quality_interpretation (mean_values qualities);
             Schedule_Consistency_Is := get_consistency_interpretation sd |} |}.

End WithLibrary.

End Analyzer.

(** * The disorder detector ([utils/disorder_detector.py]) *)

Module Detector.

(** [self.disorder_patterns] *)
Record InsomniaPatterns : Type := {
  short_sleep : Q;     (* hours *)
  low_quality : Q;     (* threshold *)
  high_latency : Q     (* minutes *)
}.
Record RhythmPatterns : Type := {
  time_variance : Q;            (* hours *)
  schedule_inconsistency : Q    (* standard deviation threshold *)
}.
Record DelayedPatterns : Type := {
  late_bedtime : Q;    (* hour of day *)
  late_wake : Q;       (* hour of day *)
  pattern_days : Q     (* consecutive days *)
}.
Record SleepDisorderDetector : Type := {
  insomnia : InsomniaPatterns;
  irregular_rhythm : RhythmPatterns;
  delayed_sleep : DelayedPatterns
}.

(** [SleepDisorderDetector.__init__] *)
Definition __init__ : SleepDisorderDetector := {|
  insomnia := {| short_sleep := 6.0; low_quality := 70; high_latency := 30 |};
  irregular_rhythm := {| time_variance := 2.0; schedule_inconsistency := 1.5 |};
  delayed_sleep := {| late_bedtime := 24; late_wake := 9; pattern_days := 5 |}
|}.

(** The dictionary a detector returns. *)
Record Risk : Type := {
  risk_level : Q;
  confidence : Q;
  evidence : list string
}.

Definition no_risk : Risk := {| risk_level := 0; confidence := 0; evidence := [] |}.

(** One rule that fired: [risk_level += dr; evidence.append(msg);
    confidence += dc]. *)
Definition fire (dr dc : Q) (msg : string) (r : Risk) : Risk :=
  {| risk_level := risk_level r + dr;
     confidence := confidence r + dc;
     evidence := evidence r ++ [msg] |}.

(** The dictionary built by the [return] of each detector. *)
Definition report (r : Risk) : Risk :=
  {| risk_level := py_min (risk_level r) 1.0;
     confidence := confidence r;
     evidence := evidence r |}.

(** [days >= len(df) * share] *)
Definition at_least (days : nat) (df : DataFrame) (share : Q) : bool :=
  Qle_bool (of_nat (index_len df) * share) (of_nat days).

Definition nights (text : string) (days : nat) : string :=
  text +:+ pretty days +:+ " nights".

Definition _detect_insomnia (self : SleepDisorderDetector) (df : DataFrame) : result Risk :=
  duration ← getitem df "duration";
  short ← series_lt duration (F (short_sleep (insomnia self)));
  let short_sleep_days := len_where short in
  quality ← getitem df "quality";
  low ← series_lt quality (F (low_quality (insomnia self)));
  let low_quality_days := len_where low in
  let r := no_risk in
  let r :=
    if at_least short_sleep_days df 0.3   (* 30% of nights *)
    then fire 0.4 0.3 (nights "Short sleep duration detected in " short_sleep_days) r
    else r in
  let r :=
    if at_least low_quality_days df 0.3
    then fire 0.3 0.3 (nights "Poor sleep quality reported in " low_quality_days) r
    else r in
  Ok (report r).

Definition _detect_delayed_sleep (self : SleepDisorderDetector) (df : DataFrame) : result Risk :=
  sleep_start ← getitem df "sleep_start";
  start_hour ← dt_hour sleep_start;
  late_bed ← series_ge start_hour (F (late_bedtime (delayed_sleep self)));
  let late_bedtimes := len_where late_bed in
  sleep_end ← getitem df "sleep_end";
  end_hour ← dt_hour sleep_end;
  late_wk ← series_ge end_hour (F (late_wake (delayed_sleep self)));
  let late_wakes := len_where late_wk in
  let r := no_risk in
  let r :=
    if at_least late_bedtimes df 0.4
    then fire 0.4 0.3 (nights "Late bedtime pattern detected in " late_bedtimes) r
    else r in
  let r :=
    if at_least late_wakes df 0.4
    then fire 0.4 0.3 (nights "Late wake time pattern detected in " late_wakes) r
    else r in
  Ok (report r).

(** [_generate_recommendations] *)
Definition _generate_recommendations (detected_disorders : list string) : list string :=
  let recommendations := [] in
  let recommendations :=
    if bool_decide ("Insomnia" ∈ detected_disorders)
    then recommendations ++
         [ "Maintain a consistent sleep schedule";
           "Create a relaxing bedtime routine";
           "Avoid screens 1-2 hours before bed";
           "Consider consulting a sleep specialist" ]
    else recommendations in
  let recommendations :=
    if bool_decide ("Irregular Sleep-Wake Rhythm" ∈ detected_disorders)
    then recommendations ++
         [ "Set fixed wake-up and bedtime hours";
           "Expose yourself to natural light during the day";
           "Avoid long naps, especially in the late afternoon";
           "Create a structured daily routine" ]
    else recommendations in
  let recommendations :=
    if bool_decide ("Delayed Sleep Phase" ∈ detected_disorders)
    then recommendations ++
         [ "Gradually adjust bedtime earlier by 15 minutes each week";
           "Use bright light therapy in the morning";
           "Avoid bright lights in the evening";
           "Maintain a consistent wake time, even on weekends" ]
    else recommendations in
  recommendations.

(** The [results] dictionary of [analyze_sleep_patterns]. *)
Record Results : Type := {
  detected_disorders : list string;
  risk_levels : gmap string Risk;
  recommendations : list string
}.

(** [if risk['risk_level'] > 0: append the name, store the risk] *)
Definition record_risk (name : string) (risk : Risk) (results : Results) : Results :=
  if Qltb 0 (risk_level risk)
  then {| detected_disorders := detected_disorders results ++ [name];
          risk_levels := <[name := risk]> (risk_levels results);
          recommendations := recommendations results |}
  else results.

Section Analyze.
(** The numeric library's square root and Python's [:.2f] format. *)
Variable sqrt : Q -> Q.
Variable format_2f : float64 -> string.

Definition _detect_irregular_rhythm (self : SleepDisorderDetector) (df : DataFrame)
    : result Risk :=
    sleep_start ← getitem df "sleep_start";
    start_hour ← dt_hour sleep_start;
    sleep_time_std ← std sqrt start_hour;
    sleep_end ← getitem df "sleep_end";
    end_hour ← dt_hour sleep_end;
    wake_time_std ← std sqrt end_hour;
    let r := no_risk in
    let r :=
      if fgtb sleep_time_std (F (schedule_inconsistency (irregular_rhythm self)))
      then fire 0.5 0.4
             ("Highly variable sleep times (std: " +:+ format_2f sleep_time_std +:+ " hours)") r
      else r in
    let r :=
      if fgtb wake_time_std (F (schedule_inconsistency (irregular_rhythm self)))
      then fire 0.3 0.3
             ("Inconsistent wake times (std: " +:+ format_2f wake_time_std +:+ " hours)") r
      else r in
    Ok (report r).

Definition analyze_sleep_patterns (self : SleepDisorderDetector) (df : DataFrame)
    : result Results :=
    let results := {| detected_disorders := []; risk_levels := ∅; recommendations := [] |} in
    (* Check for insomnia patterns *)
    insomnia_risk ← _detect_insomnia self df;
    let results := record_risk "Insomnia" insomnia_risk results in
    (* Check for irregular sleep rhythm *)
    rhythm_risk ← _detect_irregular_rhythm self df;
    let results := record_risk "Irregular Sleep-Wake Rhythm" rhythm_risk results in
    (* Check for delayed sleep phase *)
    delayed_risk ← _detect_delayed_sleep self df;
    let results := record_risk "Delayed Sleep Phase" delayed_risk results in
    (* Generate recommendations *)
    Ok {| detected_disorders := detected_disorders results;
          risk_levels := risk_levels results;
          recommendations := _generate_recommendations (detected_disorders results) |}.
End Analyze.

End Detector.

(** * A concrete library and the sample data of [main.py]

    Instances of the section variables, used to run the model: an ISO
    8601 reader for the two timestamp formats the application documents
    ([YYYY-MM-DD] and [YYYY-MM-DD HH:MM:SS]), numbers read as
    nanoseconds since the epoch, a square root rounded down to nine
    decimals and a fixed-point number format. *)

Module Sample.

Definition digit (c : ascii) : option Z :=
  let n := nat_of_ascii c in
  if (48 <=? n)%nat && (n <=? 57)%nat then Some (Z.of_nat (n - 48)) else None.

Fixpoint digits (cs : list ascii) (acc : Z) : option Z :=
  match cs with
  | [] => Some acc
  | c :: cs' => d ← digit c; digits cs' (10 * acc + d)%Z
  end.

Definition leap_year (y : Z) : bool :=
  ((y mod 4 =? 0) && negb (y mod 100 =? 0) || (y mod 400 =? 0))%Z.

Definition days_in_month (y m : Z) : Z :=
  match m with
  | 2%Z => if leap_year y then 29 else 28
  | 4%Z | 6%Z | 9%Z | 11%Z => 30
  | _ => 31
  end.

(** Days from 1970-01-01 to the civil date [y-m-d]. *)
Definition days_from_civil (y m d : Z) : Z :=
  let y := (if m <=? 2 then y - 1 else y)%Z in
  let era := (y / 400)%Z in
  let yoe := (y - era * 400)%Z in
  let doy := ((153 * (if 2 <? m then m - 3 else m + 9) + 2) / 5 + d - 1)%Z in
  let doe := (yoe * 365 + yoe / 4 - yoe / 100 + doy)%Z in
  (era * 146097 + doe - 719468)%Z.

Definition civil_date (y m d : list ascii) : option Z :=
  y ← digits y 0; m ← digits m 0; d ← digits d 0;
  if ((1 <=? m) && (m <=? 12) && (1 <=? d) && (d <=? days_in_month y m))%Z
  then Some (days_from_civil y m d) else None.

Definition time_of_day (h m s : list ascii) : option Z :=
  h ← digits h 0; m ← digits m 0; s ← digits s 0;
  if ((h <? 24) && (m <? 60) && (s <? 60))%Z
  then Some (h * 3600 + m * 60 + s)%Z else None.

Definition iso_datetime (text : string) : option Z :=
  match list_ascii_of_string text with
  | [y1; y2; y3; y4; "-"; m1; m2; "-"; d1; d2]%char =>
    days ← civil_date [y1; y2; y3; y4] [m1; m2] [d1; d2];
    Some (days * ns_per_day)%Z
  | [y1; y2; y3; y4; "-"; m1; m2; "-"; d1; d2; " "; h1; h2; ":"; n1; n2; ":"; s1; s2]%char =>
    days ← civil_date [y1; y2; y3; y4] [m1; m2] [d1; d2];
    secs ← time_of_day [h1; h2] [n1; n2] [s1; s2];
    Some (days * ns_per_day + secs * ns_per_second)%Z
  | _ => None
  end.

Definition epoch_nanoseconds (x : float64) : option Z :=
  match x with F q => Some (Qfloor q) | NaN => None end.

(** The square root, rounded down to nine decimals. *)
Definition sqrt9 (q : Q) : Q :=
  Z.sqrt (Qfloor (q * 1000000000000000000)) # 1000000000.

(** [f"{x:.<digits>f}"] on the exact value: round half to even. *)
Definition round_half_even (q : Q) : Z :=
  let lo := Qfloor q in
  match Qcompare (q - inject_Z lo) 0.5 with
  | Lt => lo
  | Gt => (lo + 1)%Z
  | Eq => if Z.even lo then lo else (lo + 1)%Z
  end.

Fixpoint pad_left (width : nat) (s : string) : string :=
  match width with
  | O => s
  | S w => if (String.length s <=? w)%nat then pad_left w ("0" +:+ s) else s
  end.

Definition format_fixed (decimals : nat) (x : float64) : string :=
  match x with
  | NaN => "nan"
  | F q =>
    let scale := (10 ^ Z.of_nat decimals)%Z in
    let n := round_half_even (Qabs q * inject_Z scale) in
    let sign := if Qltb q 0 && negb (n =? 0)%Z then "-" else "" in
    let whole := pretty (n / scale)%Z in
    match decimals with
    | O => sign +:+ whole
    | _ => sign +:+ whole +:+ "." +:+ pad_left decimals (pretty (n mod scale)%Z)
    end
  end.

(** [sample_data] of [main.py], as [pd.read_csv] returns it. *)
Definition sample_csv : DataFrame := {|
  index_len := 2;
  columns :=
    <["date" := ObjectS ["2023-01-01"; "2023-01-02"]]>
    (<["sleep_start" := ObjectS ["2023-01-01 23:00:00"; "2023-01-02 23:30:00"]]>
    (<["sleep_end" := ObjectS ["2023-01-02 07:00:00"; "2023-01-03 07:30:00"]]>
    (<["quality" := NumS [F 85; F 78]]> ∅)))
|}.

Definition validate := Processor.validate_data iso_datetime epoch_nanoseconds.
Definition process := Processor.process_sleep_data iso_datetime epoch_nanoseconds.

(** The frame without rows that [process_sleep_data] makes of a CSV file
    that has a header and no record. *)
Definition header_only_csv : DataFrame := {|
  index_len := 0;
  columns :=
    <["date" := ObjectS []]> (<["sleep_start" := ObjectS []]>
    (<["sleep_end" := ObjectS []]> (<["quality" := NumS []]> ∅)))
|}.

(** What [process_sleep_data] returns on a frame it accepts. *)
Definition processed (df : DataFrame) : DataFrame :=
  match process df with Ok features => features | Raise _ => df end.

(** The feature table of the sample data, and the one without rows. *)
Definition sample_features : DataFrame := processed sample_csv.
Definition no_features : DataFrame := processed header_only_csv.

(** Ten nights, four of them shorter than six hours, every quality at
    least 70. *)
Definition ten_nights_csv : DataFrame := {|
  index_len := 10;
  columns :=
    <["date" := ObjectS
       [ "2023-01-01"; "2023-01-02"; "2023-01-03"; "2023-01-04"; "2023-01-05";
         "2023-01-06"; "2023-01-07"; "2023-01-08"; "2023-01-09"; "2023-01-10" ]]>
    (<["sleep_start" := ObjectS
       [ "2023-01-01 23:00:00"; "2023-01-02 23:30:00"; "2023-01-03 23:00:00";
         "2023-01-04 23:30:00"; "2023-01-05 23:00:00"; "2023-01-06 23:30:00";
         "2023-01-07 23:00:00"; "2023-01-08 23:30:00"; "2023-01-09 23:00:00";
         "2023-01-10 23:30:00" ]]>
    (<["sleep_end" := ObjectS
       [ "2023-01-02 07:00:00"; "2023-01-03 05:00:00"; "2023-01-04 07:00:00";
         "2023-01-05 05:00:00"; "2023-01-06 07:00:00"; "2023-01-07 05:00:00";
         "2023-01-08 07:00:00"; "2023-01-09 05:00:00"; "2023-01-10 07:00:00";
         "2023-01-11 07:30:00" ]]>
    (<["quality" := NumS [F 85; F 78; F 90; F 70; F 88; F 72; F 95; F 75; F 80; F 82]]> ∅)))
|}.
Definition ten_nights : DataFrame := processed ten_nights_csv.

(** The values of a numeric column and of a datetime column. *)
Definition numbers (df : DataFrame) (c : string) : list float64 :=
  match columns df !! c with Some (NumS l) => l | _ => [] end.
Definition times (df : DataFrame) (c : string) : list Z :=
  match columns df !! c with Some (DatetimeS l) => l | _ => [] end.

Definition texts (df : DataFrame) (c : string) : list string :=
  match columns df !! c with Some (ObjectS l) => l | _ => [] end.

End Sample.


(** * Vocabulary of the statements *)

Inductive dtype : Type := object | datetime64 | timedelta64 | number.

Global Instance dtype_eq_dec : EqDecision dtype.
Proof. solve_decision. Defined.

Definition dtype_of (s : Series) : dtype :=
  match s with
  | ObjectS _ => object
  | DatetimeS _ => datetime64
  | TimedeltaS _ => timedelta64
  | NumS _ => number
  end.

Definition column_dtype (df : DataFrame) (c : string) : option dtype :=
  dtype_of <$> columns df !! c.

(** The columns of a feature table, as [process_sleep_data] leaves them. *)
Definition feature_schema : list (string * dtype) :=
  [ ("date", datetime64); ("sleep_start", datetime64); ("sleep_end", datetime64);
    ("quality", number); ("duration", number); ("latency", number);
    ("day_of_week", object);
    ("rolling_avg_duration", number); ("rolling_avg_quality", number) ].

Definition well_formed_b (df : DataFrame) : bool :=
  forallb (fun cs => (series_len cs.2 =? index_len df)%nat) (map_to_list (columns df)).

Definition feature_table_b (df : DataFrame) : bool :=
  well_formed_b df &&
  forallb (fun cd => bool_decide (column_dtype df cd.1 = Some cd.2)) feature_schema.

(** A feature table: a well-formed frame with the columns of the schema. *)
Definition feature_table (df : DataFrame) : Prop := feature_table_b df = true.

(** Both scores of a detector lie in [0, 1]. *)
Definition in_unit (r : Detector.Risk) : Prop :=
  (0 <= Detector.risk_level r <= 1) /\ (0 <= Detector.confidence r <= 1).

(** The rows of a numeric column that lie below a threshold. *)
Definition count_below (threshold : Q) (l : list float64) : nat :=
  length (filter (fun v => fltb v (F threshold) = true) l).

(** The hours of a datetime column, as the numbers [dt.hour] yields, and
    the rows whose hour is at or after a threshold. *)
Definition hours (l : list Z) : list float64 := map (fun t => of_Z (hour_of t)) l.

Definition count_from (threshold : Q) (l : list Z) : nat :=
  length (filter (fun v => fgeb v (F threshold) = true) (hours l)).

(** What two rules add up to: [a] and [b] tell which of them fired,
    [ra], [ca] and [rb], [cb] are their increments of risk and
    confidence. *)
Definition scored (a b : bool) (ra ca rb cb : Q) (r : Detector.Risk) : Prop :=
  Detector.risk_level r == (if a then ra else 0) + (if b then rb else 0) /\
  Detector.confidence r == (if a then ca else 0) + (if b then cb else 0).

(** * Proofs *)

(** ** Numbers and results *)

Lemma Qltb_true (x y : Q) : Qltb x y = true <-> x < y.
Proof.
  unfold Qltb. rewrite negb_true_iff. split; intros H.
  - apply Qnot_le_lt. intros Hle. apply Qle_bool_iff in Hle. congruence.
  - destruct (Qle_bool y x) eqn:E; [|reflexivity].
    apply Qle_bool_iff in E. exfalso. apply (Qlt_not_le _ _ H E).
Qed.

Lemma Qltb_false (x y : Q) : Qltb x y = false <-> y <= x.
Proof.
  unfold Qltb. rewrite negb_false_iff. apply Qle_bool_iff.
Qed.

Lemma py_min_bounds (a : Q) : 0 <= a -> 0 <= py_min a 1.0 <= 1.
Proof.
  intros Ha. unfold py_min. destruct (Qltb 1.0 a) eqn:E.
  - lra.
  - apply Qltb_false in E. lra.
Qed.

Lemma py_min_small (a : Q) : a <= 1 -> py_min a 1.0 = a.
Proof.
  intros Ha. unfold py_min. destruct (Qltb 1.0 a) eqn:E; [|reflexivity].
  apply Qltb_true in E. lra.
Qed.

Lemma bind_Ok {A B} (a : A) (f : A -> result B) : (Ok a ≫= f) = f a.
Proof. reflexivity. Qed.

Lemma returns_Ok {A} (m : result A) (P : A -> Prop) :
  returns m P <-> exists a, m = Ok a /\ P a.
Proof.
  destruct m as [a|e]; simpl; split.
  - intros H. exists a. auto.
  - intros (a' & [= <-] & H). exact H.
  - intros [].
  - intros (a' & [=] & _).
Qed.

(** ** Feature tables *)

Lemma well_formed_b_spec (df : DataFrame) : well_formed_b df = true <-> well_formed df.
Proof.
  unfold well_formed_b, well_formed. rewrite forallb_forall. split.
  - intros H c s Hc. apply Nat.eqb_eq.
    apply (H (c, s)). apply list_elem_of_In. by apply elem_of_map_to_list.
  - intros H [c s] Hin. apply Nat.eqb_eq. apply (H c).
    apply elem_of_map_to_list. by apply list_elem_of_In.
Qed.

Lemma feature_table_well_formed (df : DataFrame) : feature_table df -> well_formed df.
Proof.
  unfold feature_table, feature_table_b. intros H.
  apply andb_true_iff in H as [H _]. by apply well_formed_b_spec.
Qed.

Lemma feature_table_column (df : DataFrame) (c : string) (d : dtype) :
  feature_table df -> In (c, d) feature_schema ->
  exists s, columns df !! c = Some s /\ dtype_of s = d /\ series_len s = index_len df.
Proof.
  intros Hft Hin. pose proof (feature_table_well_formed _ Hft) as Hwf.
  unfold feature_table, feature_table_b in Hft.
  apply andb_true_iff in Hft as [_ Hft].
  rewrite forallb_forall in Hft. specialize (Hft _ Hin).
  apply bool_decide_eq_true in Hft. unfold column_dtype in Hft. simpl in Hft.
  destruct (columns df !! c) as [s|] eqn:E; [|discriminate].
  exists s. injection Hft as Hd. split; [reflexivity|]. split; [exact Hd|].
  by apply (Hwf c).
Qed.

Lemma feature_table_number (df : DataFrame) (c : string) :
  feature_table df -> In (c, number) feature_schema ->
  exists l, columns df !! c = Some (NumS l) /\ length l = index_len df.
Proof.
  intros Hft Hin. destruct (feature_table_column _ _ _ Hft Hin) as (s & Hs & Hd & Hl).
  destruct s; try discriminate. eauto.
Qed.

Lemma feature_table_datetime (df : DataFrame) (c : string) :
  feature_table df -> In (c, datetime64) feature_schema ->
  exists l, columns df !! c = Some (DatetimeS l) /\ length l = index_len df.
Proof.
  intros Hft Hin. destruct (feature_table_column _ _ _ Hft Hin) as (s & Hs & Hd & Hl).
  destruct s; try discriminate. eauto.
Qed.

Ltac schema_member := simpl; tauto.

Lemma len_where_map {A} (f : A -> bool) (l : list A) :
  len_where (map f l) = length (filter (fun v => f v = true) l).
Proof.
  unfold len_where. induction l as [|x l IH]; [reflexivity|].
  simpl. rewrite !filter_cons.
  destruct (decide (f x = true)) as [E|E]; simpl; congruence.
Qed.

Lemma hour_of_range (t : Z) : (0 <= hour_of t < 24)%Z.
Proof. unfold hour_of. apply Z.mod_pos_bound. lia. Qed.

(** ** The detector *)

Section DetectorFacts.
Import Detector.
Variable sqrt : Q -> Q.
Variable format_2f : float64 -> string.

Lemma report_in_unit (r : Risk) :
  0 <= risk_level r -> 0 <= confidence r <= 1 -> in_unit (report r).
Proof.
  intros Hr Hc. split; simpl; [by apply py_min_bounds | exact Hc].
Qed.

Lemma two_rules (a b : bool) (ra ca rb cb : Q) (ma mb : string) :
  0 <= ra -> 0 <= rb -> ra + rb <= 1 ->
  scored a b ra ca rb cb
    (report (let r := no_risk in
             let r := if a then fire ra ca ma r else r in
             let r := if b then fire rb cb mb r else r in r)).
Proof.
  intros Ha Hb Hab. unfold scored.
  destruct a, b; simpl; (rewrite py_min_small; [split; ring | lra]).
Qed.

Lemma scored_in_unit (a b : bool) (ra ca rb cb : Q) (r : Risk) :
  0 <= ra -> 0 <= rb -> ra + rb <= 1 -> 0 <= ca -> 0 <= cb -> ca + cb <= 1 ->
  scored a b ra ca rb cb r -> in_unit r.
Proof.
  intros ? ? ? ? ? ? [Hr Hc]. unfold in_unit. rewrite Hr, Hc.
  destruct a, b; lra.
Qed.

(** The insomnia detector on a frame whose duration and quality columns
    are numeric. *)
Lemma detect_insomnia_scored (self : SleepDisorderDetector) (df : DataFrame)
    (durations qualities : list float64) :
  columns df !! "duration" = Some (NumS durations) ->
  columns df !! "quality" = Some (NumS qualities) ->
  returns (_detect_insomnia self df)
    (scored (at_least (count_below (short_sleep (insomnia self)) durations) df 0.3)
            (at_least (count_below (low_quality (insomnia self)) qualities) df 0.3)
            0.4 0.3 0.3 0.3).
Proof.
  intros Hd Hq. unfold _detect_insomnia, getitem. rewrite Hd, Hq.
  cbn [mbind result_bind series_lt series_cmp returns].
  rewrite !len_where_map. apply two_rules; lra.
Qed.

Lemma detect_delayed_sleep_scored (self : SleepDisorderDetector) (df : DataFrame)
    (starts ends : list Z) :
  columns df !! "sleep_start" = Some (DatetimeS starts) ->
  columns df !! "sleep_end" = Some (DatetimeS ends) ->
  returns (_detect_delayed_sleep self df)
    (scored (at_least (count_from (late_bedtime (delayed_sleep self)) starts) df 0.4)
            (at_least (count_from (late_wake (delayed_sleep self)) ends) df 0.4)
            0.4 0.3 0.4 0.3).
Proof.
  intros Hs He. unfold _detect_delayed_sleep, getitem. rewrite Hs, He.
  cbn [mbind result_bind dt_hour series_ge series_cmp returns].
  rewrite !len_where_map. apply two_rules; lra.
Qed.

Lemma detect_irregular_rhythm_scored (self : SleepDisorderDetector) (df : DataFrame)
    (starts ends : list Z) :
  columns df !! "sleep_start" = Some (DatetimeS starts) ->
  columns df !! "sleep_end" = Some (DatetimeS ends) ->
  returns (_detect_irregular_rhythm sqrt format_2f self df)
    (scored (fgtb (std_values sqrt (hours starts))
                  (F (schedule_inconsistency (irregular_rhythm self))))
            (fgtb (std_values sqrt (hours ends))
                  (F (schedule_inconsistency (irregular_rhythm self))))
            0.5 0.4 0.3 0.3).
Proof.
  intros Hs He. unfold _detect_irregular_rhythm, getitem. rewrite Hs, He.
  cbn [mbind result_bind dt_hour std returns].
  apply two_rules; lra.
Qed.

Lemma returns_impl {A} (m : result A) (P Q : A -> Prop) :
  (forall a, P a -> Q a) -> returns m P -> returns m Q.
Proof. destruct m; simpl; auto. Qed.

(** C1. On every feature table each of the three detectors returns a
    risk level and a confidence in [0, 1], whichever of its rules
    fire. *)
Theorem detector_scores_in_unit_interval (self : SleepDisorderDetector) (df : DataFrame) :
  feature_table df ->
  returns (_detect_insomnia self df) in_unit /\
  returns (_detect_irregular_rhythm sqrt format_2f self df) in_unit /\
  returns (_detect_delayed_sleep self df) in_unit.
Proof.
  intros Hft.
  destruct (feature_table_number df "duration" Hft) as (durations & Hd & _); [schema_member|].
  destruct (feature_table_number df "quality" Hft) as (qualities & Hq & _); [schema_member|].
  destruct (feature_table_datetime df "sleep_start" Hft) as (starts & Hs & _); [schema_member|].
  destruct (feature_table_datetime df "sleep_end" Hft) as (ends & He & _); [schema_member|].
  split; [|split].
  - eapply returns_impl; [|apply (detect_insomnia_scored self df _ _ Hd Hq)].
    intros r. apply scored_in_unit; lra.
  - eapply returns_impl; [|apply (detect_irregular_rhythm_scored self df _ _ Hs He)].
    intros r. apply scored_in_unit; lra.
  - eapply returns_impl; [|apply (detect_delayed_sleep_scored self df _ _ Hs He)].
    intros r. apply scored_in_unit; lra.
Qed.

End DetectorFacts.

Section DetectorRules.
Import Detector.
Variable sqrt : Q -> Q.
Variable format_2f : float64 -> string.

Lemma at_least_spec (days : nat) (df : DataFrame) (share : Q) :
  at_least days df share = true <-> of_nat (index_len df) * share <= of_nat days.
Proof. unfold at_least. apply Qle_bool_iff. Qed.

Lemma of_nat_pos (n : nat) : (0 < n)%nat -> 0 < of_nat n.
Proof.
  intros H. unfold of_nat. change 0 with (inject_Z 0). rewrite <- Zlt_Qlt. lia.
Qed.

(** No share of a table that has rows is reached by zero rows. *)
Lemma at_least_none (df : DataFrame) (share : Q) :
  (0 < index_len df)%nat -> 0 < share -> at_least 0 df share = false.
Proof.
  intros Hn Hs. destruct (at_least 0 df share) eqn:E; [|reflexivity].
  apply at_least_spec in E. pose proof (of_nat_pos _ Hn) as Hp.
  assert (0 < of_nat (index_len df) * share) by (apply Qmult_lt_0_compat; assumption).
  change (of_nat 0) with 0 in E. lra.
Qed.

(** Every share of a table without rows is reached by zero rows. *)
Lemma at_least_empty (df : DataFrame) (share : Q) :
  index_len df = 0%nat -> at_least 0 df share = true.
Proof.
  intros Hn. apply at_least_spec. rewrite Hn. change (of_nat 0) with 0. lra.
Qed.

(** No hour of day reaches 24. *)
Lemma count_from_24 (l : list Z) : count_from 24 l = 0%nat.
Proof.
  unfold count_from, hours. induction l as [|t l IH]; [reflexivity|].
  cbn [map]. rewrite filter_cons.
  destruct (decide (fgeb (of_Z (hour_of t)) (F 24) = true)) as [E|E]; [|exact IH].
  exfalso. unfold fgeb, fleb, of_Z in E. apply Qle_bool_iff in E.
  change 24 with (inject_Z 24) in E. rewrite <- Zle_Qle in E.
  pose proof (hour_of_range t). lia.
Qed.

Lemma record_risk_other (name other : string) (risk : Risk) (results : Results) :
  name <> other ->
  risk_levels (record_risk other risk results) !! name = risk_levels results !! name.
Proof.
  intros Hne. unfold record_risk. destruct (Qltb 0 (risk_level risk)); simpl; [|reflexivity].
  by rewrite lookup_insert_ne.
Qed.

Lemma record_risk_keeps (name other : string) (risk : Risk) (results : Results) :
  In name (detected_disorders results) ->
  In name (detected_disorders (record_risk other risk results)).
Proof.
  intros Hin. unfold record_risk. destruct (Qltb 0 (risk_level risk)); simpl; [|exact Hin].
  apply in_or_app. by left.
Qed.

(** [analyze_sleep_patterns] returns on every frame on which the three
    detectors return, and reports the insomnia risk when it is positive. *)
Lemma analyze_reports_insomnia (self : SleepDisorderDetector) (df : DataFrame) (ri rr rd : Risk) :
  _detect_insomnia self df = Ok ri ->
  _detect_irregular_rhythm sqrt format_2f self df = Ok rr ->
  _detect_delayed_sleep self df = Ok rd ->
  0 < risk_level ri ->
  returns (analyze_sleep_patterns sqrt format_2f self df)
    (fun results => In "Insomnia" (detected_disorders results) /\
                    risk_levels results !! "Insomnia" = Some ri).
Proof.
  intros Hi Hr Hd Hpos. unfold analyze_sleep_patterns. rewrite Hi, Hr, Hd.
  cbn [mbind result_bind returns detected_disorders risk_levels].
  split.
  - do 2 apply record_risk_keeps. unfold record_risk.
    apply Qltb_true in Hpos. rewrite Hpos. simpl. by left.
  - rewrite !record_risk_other by discriminate. unfold record_risk.
    apply Qltb_true in Hpos. rewrite Hpos. simpl. by rewrite lookup_insert_eq.
Qed.

Lemma count_below_none (threshold : Q) (l : list float64) :
  Forall (fun v => fgeb v (F threshold) = true) l -> count_below threshold l = 0%nat.
Proof.
  unfold count_below. induction 1 as [|v l Hv _ IH]; [reflexivity|].
  rewrite filter_cons.
  destruct (decide (fltb v (F threshold) = true)) as [E|E]; [|exact IH].
  exfalso. destruct v as [q|]; [|discriminate].
  unfold fgeb, fleb in Hv. simpl in E. apply Qltb_true in E. apply Qle_bool_iff in Hv. lra.
Qed.

(** C4. The insomnia detector adds 0.4 to the risk and 0.3 to the
    confidence exactly when the nights shorter than 6.0 hours are at
    least 0.3 times the number of rows, and 0.3 and 0.3 exactly when the
    nights of quality below 70 are; with ten rows, four of them short
    and every quality at least 70, insomnia is detected with risk level
    0.4 and confidence 0.3. *)
Theorem insomnia_rules (df : DataFrame) (durations qualities : list float64) :
  feature_table df ->
  columns df !! "duration" = Some (NumS durations) ->
  columns df !! "quality" = Some (NumS qualities) ->
  let rows := of_nat (index_len df) in
  let short_sleep_days := count_below 6.0 durations in
  let low_quality_days := count_below 70 qualities in
  exists short_rule low_rule : bool,
    (short_rule = true <-> rows * 0.3 <= of_nat short_sleep_days) /\
    (low_rule = true <-> rows * 0.3 <= of_nat low_quality_days) /\
    returns (_detect_insomnia __init__ df) (scored short_rule low_rule 0.4 0.3 0.3 0.3) /\
    (index_len df = 10%nat -> short_sleep_days = 4%nat ->
     Forall (fun v => fgeb v (F 70) = true) qualities ->
     returns (analyze_sleep_patterns sqrt format_2f __init__ df)
       (fun results =>
          In "Insomnia" (detected_disorders results) /\
          exists r, risk_levels results !! "Insomnia" = Some r /\
                    risk_level r == 0.4 /\ confidence r == 0.3)).
Proof.
  intros Hft Hd Hq rows short_sleep_days low_quality_days.
  exists (at_least short_sleep_days df 0.3), (at_least low_quality_days df 0.3).
  split; [apply at_least_spec|]. split; [apply at_least_spec|].
  pose proof (detect_insomnia_scored __init__ df _ _ Hd Hq) as Hscored.
  split; [exact Hscored|].
  intros Hrows Hshort Hall.
  destruct (feature_table_datetime df "sleep_start" Hft) as (starts & Hs & _); [schema_member|].
  destruct (feature_table_datetime df "sleep_end" Hft) as (ends & He & _); [schema_member|].
  pose proof (detect_irregular_rhythm_scored sqrt format_2f __init__ df _ _ Hs He) as Hrhythm.
  pose proof (detect_delayed_sleep_scored __init__ df _ _ Hs He) as Hdelayed.
  apply returns_Ok in Hscored as (ri & Hi & Hri & Hci).
  apply returns_Ok in Hrhythm as (rr & Hr & _).
  apply returns_Ok in Hdelayed as (rd & Hdl & _).
  assert (Hfire : at_least (count_below (short_sleep (insomnia __init__)) durations) df 0.3 = true).
  { apply at_least_spec.
    change (count_below (short_sleep (insomnia __init__)) durations) with short_sleep_days.
    rewrite Hshort, Hrows. vm_compute. discriminate. }
  assert (Hquiet : at_least (count_below (low_quality (insomnia __init__)) qualities) df 0.3 = false).
  { simpl. rewrite (count_below_none _ _ Hall).
    apply at_least_none; [lia | lra]. }
  rewrite Hfire, Hquiet in Hri, Hci.
  assert (Hpos : 0 < risk_level ri) by (rewrite Hri; lra).
  eapply returns_impl; [|apply (analyze_reports_insomnia __init__ df ri rr rd Hi Hr Hdl Hpos)].
  intros results [Hin Hlook]. split; [exact Hin|].
  exists ri. split; [exact Hlook|]. split; [rewrite Hri | rewrite Hci]; lra.
Qed.

(** The patterns of [__init__] with another value of [time_variance]. *)
Definition with_time_variance (variance : Q) : SleepDisorderDetector :=
  {| insomnia := insomnia __init__;
     irregular_rhythm :=
       {| time_variance := variance;
          schedule_inconsistency := schedule_inconsistency (irregular_rhythm __init__) |};
     delayed_sleep := delayed_sleep __init__ |}.

(** C9. The irregular-rhythm detector adds 0.5 to the risk and 0.4 to
    the confidence exactly when the standard deviation of the hours of
    [sleep_start] exceeds 1.5, and 0.3 and 0.3 exactly when that of the
    hours of [sleep_end] does; the value of [time_variance] plays no
    part. *)
Theorem irregular_rhythm_rules (variance : Q) (df : DataFrame) (starts ends : list Z) :
  columns df !! "sleep_start" = Some (DatetimeS starts) ->
  columns df !! "sleep_end" = Some (DatetimeS ends) ->
  returns (_detect_irregular_rhythm sqrt format_2f (with_time_variance variance) df)
    (scored (fgtb (std_values sqrt (hours starts)) (F 1.5))
            (fgtb (std_values sqrt (hours ends)) (F 1.5))
            0.5 0.4 0.3 0.3) /\
  _detect_irregular_rhythm sqrt format_2f (with_time_variance variance) df =
  _detect_irregular_rhythm sqrt format_2f __init__ df.
Proof.
  intros Hs He. split; [|reflexivity].
  apply (detect_irregular_rhythm_scored sqrt format_2f (with_time_variance variance) df _ _ Hs He).
Qed.

(** On a feature table that has rows, the late-bedtime rule of the
    delayed-sleep detector never fires: the scores are those of the
    late-wake rule alone. *)
Lemma late_bedtime_rule_silent (df : DataFrame) (ends : list Z) :
  feature_table df -> (0 < index_len df)%nat ->
  columns df !! "sleep_end" = Some (DatetimeS ends) ->
  returns (_detect_delayed_sleep __init__ df)
    (scored false (at_least (count_from 9 ends) df 0.4) 0.4 0.3 0.4 0.3).
Proof.
  intros Hft Hrows He.
  destruct (feature_table_datetime df "sleep_start" Hft) as (starts & Hs & _); [schema_member|].
  pose proof (detect_delayed_sleep_scored __init__ df _ _ Hs He) as H.
  simpl in H. rewrite count_from_24 in H.
  rewrite (at_least_none df 0.4 Hrows) in H by lra. exact H.
Qed.


End DetectorRules.

(** C2, on the table without rows. The late-bedtime rule fires there:
    no hour reaches 24, but zero nights are at least 0.4 times zero
    rows. *)
Theorem late_bedtime_rule_fires_without_rows :
  feature_table Sample.no_features /\
  count_from 24 [] = 0%nat /\
  returns (Detector._detect_delayed_sleep Detector.__init__ Sample.no_features)
    (fun r => Detector.risk_level r == 0.8 /\ Detector.confidence r == 0.6 /\
              Detector.evidence r =
                [ "Late bedtime pattern detected in 0 nights";
                  "Late wake time pattern detected in 0 nights" ]).
Proof.
  split; [vm_compute; reflexivity|]. split; [reflexivity|].
  vm_compute. repeat split; reflexivity.
Qed.

(** C3, on the table without rows. No rule has a matching row, yet the
    count rules fire: insomnia and delayed sleep phase are reported with
    positive risk and confidence. *)
Theorem rules_fire_without_rows :
  feature_table Sample.no_features /\
  returns (Detector.analyze_sleep_patterns Sample.sqrt9 (Sample.format_fixed 2)
             Detector.__init__ Sample.no_features)
    (fun results =>
       Detector.detected_disorders results = ["Insomnia"; "Delayed Sleep Phase"] /\
       (exists r, Detector.risk_levels results !! "Insomnia" = Some r /\
                  Detector.risk_level r == 0.7 /\ Detector.confidence r == 0.6 /\
                  Detector.evidence r =
                    [ "Short sleep duration detected in 0 nights";
                      "Poor sleep quality reported in 0 nights" ]) /\
       (exists r, Detector.risk_levels results !! "Delayed Sleep Phase" = Some r /\
                  Detector.risk_level r == 0.8 /\ Detector.confidence r == 0.6)).
Proof.
  split; [vm_compute; reflexivity|].
  vm_compute. split; [reflexivity|]. split; eexists; repeat split; reflexivity.
Qed.

(** ** The detector on the sample tables *)

Lemma detector_scores_in_unit_interval_witness :
  feature_table Sample.sample_features /\
  (returns (Detector._detect_insomnia Detector.__init__ Sample.sample_features) in_unit /\
   returns (Detector._detect_irregular_rhythm Sample.sqrt9 (Sample.format_fixed 2)
              Detector.__init__ Sample.sample_features) in_unit /\
   returns (Detector._detect_delayed_sleep Detector.__init__ Sample.sample_features) in_unit).
Proof.
  split; [vm_compute; reflexivity|].
  apply (detector_scores_in_unit_interval Sample.sqrt9 (Sample.format_fixed 2)).
  vm_compute; reflexivity.
Defined.

Lemma insomnia_rules_witness :
  feature_table Sample.ten_nights /\
  index_len Sample.ten_nights = 10%nat /\
  count_below 6.0 (Sample.numbers Sample.ten_nights "duration") = 4%nat /\
  Forall (fun v => fgeb v (F 70) = true) (Sample.numbers Sample.ten_nights "quality") /\
  returns (Detector.analyze_sleep_patterns Sample.sqrt9 (Sample.format_fixed 2)
             Detector.__init__ Sample.ten_nights)
    (fun results =>
       In "Insomnia" (Detector.detected_disorders results) /\
       exists r, Detector.risk_levels results !! "Insomnia" = Some r /\
                 Detector.risk_level r == 0.4 /\ Detector.confidence r == 0.3).
Proof.
  assert (Hft : feature_table Sample.ten_nights) by (vm_compute; reflexivity).
  assert (Hrows : index_len Sample.ten_nights = 10%nat) by (vm_compute; reflexivity).
  assert (Hshort : count_below 6.0 (Sample.numbers Sample.ten_nights "duration") = 4%nat)
    by (vm_compute; reflexivity).
  assert (Hall : Forall (fun v => fgeb v (F 70) = true)
                   (Sample.numbers Sample.ten_nights "quality"))
    by (vm_compute; repeat constructor).
  destruct (insomnia_rules Sample.sqrt9 (Sample.format_fixed 2) Sample.ten_nights
              (Sample.numbers Sample.ten_nights "duration")
              (Sample.numbers Sample.ten_nights "quality") Hft)
    as (short_rule & low_rule & _ & _ & _ & Hscenario);
    [vm_compute; reflexivity | vm_compute; reflexivity |].
  split; [exact Hft|]. split; [exact Hrows|]. split; [exact Hshort|]. split; [exact Hall|].
  exact (Hscenario Hrows Hshort Hall).
Defined.

Lemma irregular_rhythm_rules_witness :
  columns Sample.sample_features !! "sleep_start"
    = Some (DatetimeS (Sample.times Sample.sample_features "sleep_start")) /\
  columns Sample.sample_features !! "sleep_end"
    = Some (DatetimeS (Sample.times Sample.sample_features "sleep_end")) /\
  returns (Detector._detect_irregular_rhythm Sample.sqrt9 (Sample.format_fixed 2)
             (with_time_variance 99) Sample.sample_features)
    (scored (fgtb (std_values Sample.sqrt9
                     (hours (Sample.times Sample.sample_features "sleep_start"))) (F 1.5))
            (fgtb (std_values Sample.sqrt9
                     (hours (Sample.times Sample.sample_features "sleep_end"))) (F 1.5))
            0.5 0.4 0.3 0.3).
Proof.
  assert (Hs : columns Sample.sample_features !! "sleep_start"
               = Some (DatetimeS (Sample.times Sample.sample_features "sleep_start")))
    by (vm_compute; reflexivity).
  assert (He : columns Sample.sample_features !! "sleep_end"
               = Some (DatetimeS (Sample.times Sample.sample_features "sleep_end")))
    by (vm_compute; reflexivity).
  split; [exact Hs|]. split; [exact He|].
  exact (proj1 (irregular_rhythm_rules Sample.sqrt9 (Sample.format_fixed 2) 99
                  Sample.sample_features _ _ Hs He)).
Defined.

(** ** The quality distribution *)

Section QualityBuckets.
Import Analyzer.

Lemma len_where_cons (b : bool) (mask : list bool) :
  len_where (b :: mask) = ((if b then 1 else 0) + len_where mask)%nat.
Proof. unfold len_where. rewrite filter_cons. destruct b; reflexivity. Qed.

(** The four masks of the quality distribution. *)
Definition excellent_mask (l : list float64) : list bool := map (fun v => fgeb v (F 90)) l.
Definition good_mask (l : list float64) : list bool :=
  mask_and (map (fun v => fgeb v (F 80)) l) (map (fun v => fltb v (F 90)) l).
Definition fair_mask (l : list float64) : list bool :=
  mask_and (map (fun v => fgeb v (F 70)) l) (map (fun v => fltb v (F 80)) l).
Definition poor_mask (l : list float64) : list bool := map (fun v => fltb v (F 70)) l.

Lemma quality_distribution_masks (df : DataFrame) (qualities : list float64) :
  columns df !! "quality" = Some (NumS qualities) ->
  quality_distribution df =
    Ok {| Excellent := nights_where (excellent_mask qualities);
          Good := nights_where (good_mask qualities);
          Fair := nights_where (fair_mask qualities);
          Poor := nights_where (poor_mask qualities) |}.
Proof.
  intros Hq. unfold quality_distribution, getitem. rewrite Hq. reflexivity.
Qed.

(** A quality that is a number falls into exactly one bucket. *)
Lemma one_bucket (q : Q) :
  ((if fgeb (F q) (F 90) then 1 else 0) +
   (if fgeb (F q) (F 80) && fltb (F q) (F 90) then 1 else 0) +
   (if fgeb (F q) (F 70) && fltb (F q) (F 80) then 1 else 0) +
   (if fltb (F q) (F 70) then 1 else 0) = 1)%nat.
Proof.
  unfold fgeb, fleb, fltb, Qltb.
  destruct (Qle_bool 90 q) eqn:E90, (Qle_bool 80 q) eqn:E80, (Qle_bool 70 q) eqn:E70;
    simpl; try reflexivity; exfalso;
    repeat match goal with
           | H : Qle_bool _ _ = true |- _ => apply Qle_bool_iff in H
           | H : Qle_bool ?a ?b = false |- _ =>
             assert (b < a) by (apply Qltb_true; unfold Qltb; rewrite H; reflexivity); clear H
           end; lra.
Qed.

Lemma buckets_cover (l : list float64) :
  Forall (fun v => is_nan v = false) l ->
  (len_where (excellent_mask l) + len_where (good_mask l) +
   len_where (fair_mask l) + len_where (poor_mask l) = length l)%nat.
Proof.
  unfold excellent_mask, good_mask, fair_mask, poor_mask, mask_and.
  induction 1 as [|v l Hv _ IH]; [reflexivity|].
  cbn [map combine fst snd length]. rewrite !len_where_cons.
  destruct v as [q|]; [|discriminate].
  pose proof (one_bucket q). lia.
Qed.

Lemma buckets_all_fair (l : list float64) :
  Forall (fun v => feq v (F 70)) l ->
  len_where (excellent_mask l) = 0%nat /\ len_where (good_mask l) = 0%nat /\
  len_where (fair_mask l) = length l /\ len_where (poor_mask l) = 0%nat.
Proof.
  unfold excellent_mask, good_mask, fair_mask, poor_mask, mask_and.
  induction 1 as [|v l Hv _ (IH1 & IH2 & IH3 & IH4)]; [repeat split|].
  cbn [map combine fst snd length]. rewrite !len_where_cons, IH1, IH2, IH3, IH4.
  destruct v as [q|]; [|contradiction]. simpl in Hv.
  assert (E90 : Qle_bool 90 q = false).
  { destruct (Qle_bool 90 q) eqn:E; [|reflexivity]. apply Qle_bool_iff in E. lra. }
  assert (E80 : Qle_bool 80 q = false).
  { destruct (Qle_bool 80 q) eqn:E; [|reflexivity]. apply Qle_bool_iff in E. lra. }
  assert (E70 : Qle_bool 70 q = true) by (apply Qle_bool_iff; lra).
  unfold fgeb, fleb, fltb, Qltb. rewrite E90, E80, E70. repeat split.
Qed.

Lemma in_range_is_number (v : float64) :
  fleb (F 0) v = true /\ fleb v (F 100) = true -> is_nan v = false.
Proof. destruct v; [reflexivity | intros [[=] _]]. Qed.

(** C7. On a table of N rows whose qualities lie in [0, 100], the four
    counts of the quality distribution add up to N; and when every
    quality is 70, the count of 'Fair (70-79)' is N and the other three
    are 0. *)
Theorem quality_buckets_partition (df : DataFrame) (qualities : list float64) :
  well_formed df ->
  columns df !! "quality" = Some (NumS qualities) ->
  Forall (fun v => fleb (F 0) v = true /\ fleb v (F 100) = true) qualities ->
  exists excellent good fair poor : nat,
    quality_distribution df =
      Ok {| Excellent := pretty excellent +:+ " nights";
            Good := pretty good +:+ " nights";
            Fair := pretty fair +:+ " nights";
            Poor := pretty poor +:+ " nights" |} /\
    (excellent + good + fair + poor = index_len df)%nat /\
    (Forall (fun v => feq v (F 70)) qualities ->
     excellent = 0%nat /\ good = 0%nat /\ fair = index_len df /\ poor = 0%nat).
Proof.
  intros Hwf Hq Hrange.
  assert (Hlen : length qualities = index_len df) by apply (Hwf _ _ Hq).
  exists (len_where (excellent_mask qualities)), (len_where (good_mask qualities)),
         (len_where (fair_mask qualities)), (len_where (poor_mask qualities)).
  split; [exact (quality_distribution_masks df qualities Hq)|].
  rewrite <- Hlen. split.
  - apply buckets_cover. eapply Forall_impl; [exact Hrange|].
    intros v. apply in_range_is_number.
  - apply buckets_all_fair.
Qed.

End QualityBuckets.

Lemma quality_buckets_partition_witness :
  well_formed Sample.ten_nights /\
  columns Sample.ten_nights !! "quality"
    = Some (NumS (Sample.numbers Sample.ten_nights "quality")) /\
  Forall (fun v => fleb (F 0) v = true /\ fleb v (F 100) = true)
    (Sample.numbers Sample.ten_nights "quality") /\
  exists excellent good fair poor : nat,
    Analyzer.quality_distribution Sample.ten_nights =
      Ok {| Analyzer.Excellent := pretty excellent +:+ " nights";
            Analyzer.Good := pretty good +:+ " nights";
            Analyzer.Fair := pretty fair +:+ " nights";
            Analyzer.Poor := pretty poor +:+ " nights" |} /\
    (excellent + good + fair + poor = 10)%nat.
Proof.
  assert (Hwf : well_formed Sample.ten_nights)
    by (apply well_formed_b_spec; vm_compute; reflexivity).
  assert (Hq : columns Sample.ten_nights !! "quality"
               = Some (NumS (Sample.numbers Sample.ten_nights "quality")))
    by (vm_compute; reflexivity).
  assert (Hrange : Forall (fun v => fleb (F 0) v = true /\ fleb v (F 100) = true)
                     (Sample.numbers Sample.ten_nights "quality"))
    by (vm_compute; repeat constructor).
  repeat (split; [assumption|]).
  destruct (quality_buckets_partition Sample.ten_nights _ Hwf Hq Hrange)
    as (excellent & good & fair & poor & Hdist & Hsum & _).
  exists excellent, good, fair, poor. split; [exact Hdist | exact Hsum].
Defined.

(** ** Validation *)

Section Validation.
Import Processor.
Variable parse_datetime : string -> option Z.
Variable number_datetime : float64 -> option Z.

Abbreviation to_datetime := (to_datetime parse_datetime number_datetime).
Abbreviation convert := (convert parse_datetime number_datetime).
Abbreviation validate_data := (validate_data parse_datetime number_datetime).

Lemma stmt_bind_ok {A B} (m : Stmt A) (f : A -> Stmt B) (df df' : DataFrame) (a : A) :
  m df = (df', Ok a) -> (m ≫= f) df = f a df'.
Proof. intros H. unfold mbind, stmt_bind. rewrite H. reflexivity. Qed.

Lemma stmt_bind_raise {A B} (m : Stmt A) (f : A -> Stmt B) (df df' : DataFrame) (e : exn) :
  m df = (df', Raise e) -> (m ≫= f) df = (df', Raise e).
Proof. intros H. unfold mbind, stmt_bind. rewrite H. reflexivity. Qed.

Lemma convert_ok (c : string) (df : DataFrame) (s t : Series) :
  columns df !! c = Some s -> to_datetime s = Ok t ->
  convert c df = (setitem c t df, Ok tt).
Proof.
  intros Hc Ht. unfold Processor.convert.
  rewrite (stmt_bind_ok _ _ df df s) by (unfold load, getitem; rewrite Hc; reflexivity).
  rewrite (stmt_bind_ok _ _ df df t) by (unfold lift; rewrite Ht; reflexivity).
  reflexivity.
Qed.

Lemma to_datetime_dtype (s t : Series) :
  to_datetime s = Ok t -> exists l, t = DatetimeS l /\ length l = series_len s.
Proof.
  assert (Hcells : forall A (parse : A -> option Z) show (l : list A) ts,
             parse_cells parse show l = Ok ts -> length ts = length l).
  { intros A parse show l. induction l as [|x l IH]; intros ts; simpl.
    - intros [= <-]. reflexivity.
    - destruct (parse x); [|discriminate].
      destruct (parse_cells parse show l) as [ts'|]; [|discriminate].
      intros [= <-]. simpl. f_equal. by apply IH. }
  destruct s as [l|l|l|l]; simpl.
  - destruct (parse_cells parse_datetime id l) as [ts|] eqn:E; [|discriminate].
    intros [= <-]. exists ts. split; [reflexivity | by apply (Hcells _ _ _ _ _ E)].
  - intros [= <-]. eauto.
  - discriminate.
  - destruct (parse_cells number_datetime _ l) as [ts|] eqn:E; [|discriminate].
    intros [= <-]. exists ts. split; [reflexivity | by apply (Hcells _ _ _ _ _ E)].
Qed.

(** A conversion leaves a column as it is exactly when the column holds
    timestamps already. *)
Lemma to_datetime_fixed (s t : Series) :
  to_datetime s = Ok t -> (t = s <-> dtype_of s = datetime64).
Proof.
  intros H. destruct (to_datetime_dtype _ _ H) as (l & -> & _).
  destruct s; simpl in *; split; try discriminate; try reflexivity.
  intros _. by injection H as ->.
Qed.

Lemma required_columns_present (df : DataFrame) :
  forallb (fun col => bool_decide (col ∈ elements (dom (columns df)))) required_columns = true
  <-> Forall (fun col => is_Some (columns df !! col)) required_columns.
Proof.
  rewrite forallb_forall, List.Forall_forall. split; intros H col Hin.
  - specialize (H col Hin). apply bool_decide_eq_true in H.
    apply elem_of_elements in H. by apply elem_of_dom.
  - apply bool_decide_eq_true, elem_of_elements, elem_of_dom. by apply H.
Qed.

Lemma setitem_same (c : string) (s : Series) (df : DataFrame) :
  columns df !! c = Some s -> setitem c s df = df.
Proof.
  intros H. destruct df as [n cols]. unfold setitem. simpl in *. f_equal. by apply insert_id.
Qed.

Lemma between_all (l : list float64) (lo hi : Q) :
  all (map (fun v => fleb (F lo) v && fleb v (F hi)) l) = true
  <-> Forall (fun v => fleb (F lo) v = true /\ fleb v (F hi) = true) l.
Proof.
  unfold all. rewrite forallb_forall, List.Forall_forall. split.
  - intros H v Hv. apply andb_true_iff. apply H. apply in_map_iff. eauto.
  - intros H b Hb. apply in_map_iff in Hb as (v & <- & Hv). apply andb_true_iff. by apply H.
Qed.

(** The frame [validate_data] leaves behind when it accepts the input. *)
Definition converted (d s e : Series) (df : DataFrame) : DataFrame :=
  setitem "sleep_end" e (setitem "sleep_start" s (setitem "date" d df)).

Lemma validate_data_accepts (df : DataFrame) (d s e d' s' e' : Series) (q : list float64) :
  columns df !! "date" = Some d ->
  columns df !! "sleep_start" = Some s ->
  columns df !! "sleep_end" = Some e ->
  columns df !! "quality" = Some (NumS q) ->
  to_datetime d = Ok d' -> to_datetime s = Ok s' -> to_datetime e = Ok e' ->
  Forall (fun v => fleb (F 0) v = true /\ fleb v (F 100) = true) q ->
  validate_data df = (converted d' s' e' df, Ok true).
Proof.
  intros Hd Hs He Hq Hd' Hs' He' Hrange. unfold Processor.validate_data.
  rewrite (stmt_bind_ok _ _ df df (elements (dom (columns df)))) by reflexivity.
  assert (Hreq : forallb (fun col => bool_decide (col ∈ elements (dom (columns df))))
                   required_columns = true).
  { apply required_columns_present. unfold required_columns.
    repeat constructor; eexists; eassumption. }
  rewrite Hreq. cbn [negb].
  rewrite (stmt_bind_ok _ _ df _ tt (convert_ok "date" df d d' Hd Hd')).
  rewrite (stmt_bind_ok _ _ _ _ tt
             (convert_ok "sleep_start" (setitem "date" d' df) s s'
                ltac:(simpl; rewrite lookup_insert_ne by discriminate; exact Hs) Hs')).
  rewrite (stmt_bind_ok _ _ _ _ tt
             (convert_ok "sleep_end" (setitem "sleep_start" s' (setitem "date" d' df)) e e'
                ltac:(simpl; rewrite !lookup_insert_ne by discriminate; exact He) He')).
  fold (converted d' s' e' df).
  rewrite (stmt_bind_ok _ _ _ (converted d' s' e' df) (NumS q)).
  2:{ unfold load, getitem, converted. simpl.
      rewrite !lookup_insert_ne by discriminate. rewrite Hq. reflexivity. }
  rewrite (stmt_bind_ok _ _ _ (converted d' s' e' df)
             (map (fun v => fleb (F 0) v && fleb v (F 100)) q)) by reflexivity.
  rewrite (proj2 (between_all q 0 100) Hrange). reflexivity.
Qed.

(** C5, as the code has it. When the required columns are there, the
    three time columns parse and every quality lies in [0, 100],
    [validate_data] returns true and leaves the frame with the three
    time columns replaced by their timestamps: every other column and
    the number of rows are as before, and the frame as a whole is
    unchanged exactly when the three columns held timestamps already. *)
Theorem validate_data_converts_in_place
    (df : DataFrame) (d s e d' s' e' : Series) (q : list float64) :
  columns df !! "date" = Some d ->
  columns df !! "sleep_start" = Some s ->
  columns df !! "sleep_end" = Some e ->
  columns df !! "quality" = Some (NumS q) ->
  to_datetime d = Ok d' -> to_datetime s = Ok s' -> to_datetime e = Ok e' ->
  Forall (fun v => fleb (F 0) v = true /\ fleb v (F 100) = true) q ->
  let after := fst (validate_data df) in
  snd (validate_data df) = Ok true /\
  columns after !! "date" = Some d' /\
  columns after !! "sleep_start" = Some s' /\
  columns after !! "sleep_end" = Some e' /\
  (forall c, c <> "date" -> c <> "sleep_start" -> c <> "sleep_end" ->
             columns after !! c = columns df !! c) /\
  index_len after = index_len df /\
  (after = df <->
   dtype_of d = datetime64 /\ dtype_of s = datetime64 /\ dtype_of e = datetime64).
Proof.
  intros Hd Hs He Hq Hd' Hs' He' Hrange after. subst after.
  rewrite (validate_data_accepts df d s e d' s' e' q) by assumption.
  cbn [fst snd]. unfold converted. split; [reflexivity|].
  split; [simpl; rewrite !lookup_insert_ne by discriminate; apply lookup_insert_eq|].
  split; [simpl; rewrite lookup_insert_ne by discriminate; apply lookup_insert_eq|].
  split; [simpl; apply lookup_insert_eq|].
  split; [intros c H1 H2 H3; simpl; by rewrite !lookup_insert_ne by congruence|].
  split; [reflexivity|].
  rewrite <- (to_datetime_fixed d d' Hd'), <- (to_datetime_fixed s s' Hs'),
          <- (to_datetime_fixed e e' He').
  split.
  - intros Heq.
    assert (Hcol : forall c, columns (setitem "sleep_end" e'
                     (setitem "sleep_start" s' (setitem "date" d' df))) !! c
                   = columns df !! c) by (intros c; rewrite Heq; reflexivity).
    pose proof (Hcol "date") as H1. pose proof (Hcol "sleep_start") as H2.
    pose proof (Hcol "sleep_end") as H3. simpl in H1, H2, H3.
    rewrite !lookup_insert_ne in H1 by discriminate.
    rewrite lookup_insert_ne in H2 by discriminate.
    rewrite lookup_insert_eq in H1, H2, H3.
    rewrite Hd in H1. rewrite Hs in H2. rewrite He in H3.
    injection H1 as ->. injection H2 as ->. injection H3 as ->. auto.
  - intros (-> & -> & ->).
    rewrite (setitem_same "date" d df Hd), (setitem_same "sleep_start" s df Hs).
    apply (setitem_same "sleep_end" e df He).
Qed.

End Validation.

(** C5, refuted as stated: [validate_data] accepts the sample data and
    leaves a frame that differs from its input (the text of the date
    column has become timestamps). *)
Lemma validate_data_changes_its_argument :
  snd (Sample.validate Sample.sample_csv) = Ok true /\
  fst (Sample.validate Sample.sample_csv) <> Sample.sample_csv.
Proof.
  split; [vm_compute; reflexivity|].
  intros H. apply (f_equal (fun df => columns df !! "date")) in H.
  vm_compute in H. discriminate.
Qed.

Lemma validate_data_converts_in_place_witness :
  let df := Sample.sample_csv in
  let text c := ObjectS (Sample.texts df c) in
  let stamps c := DatetimeS (Sample.times (fst (Sample.validate df)) c) in
  columns df !! "date" = Some (text "date") /\
  columns df !! "sleep_start" = Some (text "sleep_start") /\
  columns df !! "sleep_end" = Some (text "sleep_end") /\
  columns df !! "quality" = Some (NumS (Sample.numbers df "quality")) /\
  Processor.to_datetime Sample.iso_datetime Sample.epoch_nanoseconds (text "date")
    = Ok (stamps "date") /\
  Processor.to_datetime Sample.iso_datetime Sample.epoch_nanoseconds (text "sleep_start")
    = Ok (stamps "sleep_start") /\
  Processor.to_datetime Sample.iso_datetime Sample.epoch_nanoseconds (text "sleep_end")
    = Ok (stamps "sleep_end") /\
  Forall (fun v => fleb (F 0) v = true /\ fleb v (F 100) = true) (Sample.numbers df "quality") /\
  snd (Sample.validate df) = Ok true /\
  columns (fst (Sample.validate df)) !! "date" = Some (stamps "date") /\
  columns (fst (Sample.validate df)) !! "quality" = columns df !! "quality" /\
  index_len (fst (Sample.validate df)) = index_len df.
Proof.
  intros df text stamps.
  assert (Hd : columns df !! "date" = Some (text "date")) by (vm_compute; reflexivity).
  assert (Hs : columns df !! "sleep_start" = Some (text "sleep_start"))
    by (vm_compute; reflexivity).
  assert (He : columns df !! "sleep_end" = Some (text "sleep_end"))
    by (vm_compute; reflexivity).
  assert (Hq : columns df !! "quality" = Some (NumS (Sample.numbers df "quality")))
    by (vm_compute; reflexivity).
  assert (Hd' : Processor.to_datetime Sample.iso_datetime Sample.epoch_nanoseconds
                  (text "date") = Ok (stamps "date")) by (vm_compute; reflexivity).
  assert (Hs' : Processor.to_datetime Sample.iso_datetime Sample.epoch_nanoseconds
                  (text "sleep_start") = Ok (stamps "sleep_start")) by (vm_compute; reflexivity).
  assert (He' : Processor.to_datetime Sample.iso_datetime Sample.epoch_nanoseconds
                  (text "sleep_end") = Ok (stamps "sleep_end")) by (vm_compute; reflexivity).
  assert (Hrange : Forall (fun v => fleb (F 0) v = true /\ fleb v (F 100) = true)
                     (Sample.numbers df "quality")) by (vm_compute; repeat constructor).
  repeat (split; [assumption|]).
  destruct (validate_data_converts_in_place Sample.iso_datetime Sample.epoch_nanoseconds
              df _ _ _ _ _ _ _ Hd Hs He Hq Hd' Hs' He' Hrange)
    as (Hok & Hdate & _ & _ & Hother & Hrows & _).
  split; [exact Hok|]. split; [exact Hdate|].
  split; [apply Hother; discriminate | exact Hrows].
Defined.

(** ** The rolling mean *)

Section RollingMean.


Lemma slice_empty {A} (l : list A) (a : nat) : slice l a a = [].
Proof. unfold slice. rewrite Nat.sub_diag. reflexivity. Qed.
















Lemma roll_mean_rows_length (values : list float64) (window minp rows i : nat)
    (st : mean_state) : length (roll_mean_rows values window minp rows i st) = rows.
Proof.
  revert i st. induction rows as [|rows IH]; intros i st; [reflexivity|].
  cbn [roll_mean_rows length]. by rewrite IH.
Qed.

Lemma roll_mean_length (values : list float64) (window minp : nat) :
  length (roll_mean window minp values) = length values.
Proof. apply roll_mean_rows_length. Qed.



End RollingMean.

(** ** The feature processor *)

(** Hours between two timestamps, and minutes from 22:00 of a day to a
    timestamp, as [process_sleep_data] computes them. *)
Definition hours_asleep (sleep_start sleep_end : Z) : Q :=
  inject_Z (sleep_end - sleep_start) / inject_Z ns_per_second / 3600.

Definition minutes_late (date sleep_start : Z) : Q :=
  inject_Z (sleep_start - (date - date mod ns_per_day + 22 * ns_per_hour))
    / inject_Z ns_per_second / 60.

(** The feature table of a frame whose time columns hold the timestamps
    [dates], [starts] and [ends] and whose qualities are [qualities]. *)
Definition features_of (dates starts ends : list Z) (qualities : list float64)
    (df : DataFrame) : DataFrame :=
  let durations := map F (zip_with hours_asleep starts ends) in
  setitem "rolling_avg_quality" (NumS (roll_mean 7 1 qualities))
  (setitem "rolling_avg_duration" (NumS (roll_mean 7 1 durations))
  (setitem "day_of_week" (ObjectS (map day_name dates))
  (setitem "latency" (NumS (map F (zip_with minutes_late dates starts)))
  (setitem "duration" (NumS durations)
  (setitem "sleep_end" (DatetimeS ends)
  (setitem "sleep_start" (DatetimeS starts)
  (setitem "date" (DatetimeS dates) df))))))).

Section Pipeline.
Import Processor.
Variable parse_datetime : string -> option Z.
Variable number_datetime : float64 -> option Z.

Abbreviation process_sleep_data := (process_sleep_data parse_datetime number_datetime).
Abbreviation validate_data := (Processor.validate_data parse_datetime number_datetime).
Abbreviation to_datetime := (Processor.to_datetime parse_datetime number_datetime).

Lemma zip_with_sub_hours (starts ends : list Z) :
  map (fun v => fdiv v (F 3600))
    (map (fun ns => F (inject_Z ns / inject_Z ns_per_second)) (zip_with Z.sub ends starts))
  = map F (zip_with hours_asleep starts ends).
Proof.
  revert ends. induction starts as [|s starts IH]; intros [|e ends]; try reflexivity.
  simpl. f_equal. apply IH.
Qed.

Lemma zip_with_sub_minutes (dates starts : list Z) :
  map (fun v => fdiv v (F 60))
    (map (fun ns => F (inject_Z ns / inject_Z ns_per_second))
       (zip_with Z.sub starts
          (map (fun t => (t + 22 * ns_per_hour)%Z)
             (map (fun t => (t - t mod ns_per_day)%Z) dates))))
  = map F (zip_with minutes_late dates starts).
Proof.
  revert starts. induction dates as [|d dates IH]; intros [|s starts]; try reflexivity.
  simpl. f_equal. apply IH.
Qed.

(** [process_sleep_data] on a frame whose time columns hold timestamps
    and whose quality column holds numbers. *)
Lemma process_sleep_data_features (df : DataFrame) (dates starts ends : list Z)
    (qualities : list float64) :
  columns df !! "date" = Some (DatetimeS dates) ->
  columns df !! "sleep_start" = Some (DatetimeS starts) ->
  columns df !! "sleep_end" = Some (DatetimeS ends) ->
  columns df !! "quality" = Some (NumS qualities) ->
  process_sleep_data df = Ok (features_of dates starts ends qualities df).
Proof.
  intros Hd Hs He Hq.
  unfold Processor.process_sleep_data, process_statements, Processor.convert,
    load, store, lift, getitem, mbind, stmt_bind.
  rewrite Hd. cbn [to_datetime setitem columns index_len].
  rewrite lookup_insert_ne by discriminate. rewrite Hs. cbn [to_datetime setitem columns index_len].
  rewrite !lookup_insert_ne by discriminate. rewrite He.
  cbn [to_datetime setitem columns index_len].
  rewrite lookup_insert_eq.
  rewrite lookup_insert_ne by discriminate. rewrite lookup_insert_eq.
  cbn [series_sub dt_total_seconds series_div setitem columns index_len].
  rewrite !lookup_insert_ne by discriminate. rewrite lookup_insert_eq.
  cbn [dt_normalize add_hours].
  rewrite !lookup_insert_ne by discriminate. rewrite lookup_insert_eq.
  cbn [series_sub dt_total_seconds series_div setitem columns index_len].
  rewrite !lookup_insert_ne by discriminate. rewrite lookup_insert_eq.
  cbn [dt_day_name setitem columns index_len].
  rewrite !lookup_insert_ne by discriminate. rewrite lookup_insert_eq.
  cbn [rolling_mean setitem columns index_len].
  rewrite !lookup_insert_ne by discriminate. rewrite Hq.
  cbn [rolling_mean setitem columns index_len].
  rewrite zip_with_sub_hours, zip_with_sub_minutes. reflexivity.
Qed.

(** What [validate_data] has checked when it returns true. *)
Lemma validate_data_inv (df : DataFrame) :
  snd (validate_data df) = Ok true ->
  exists (d s e d' s' e' : Series) (q : list float64),
    columns df !! "date" = Some d /\
    columns df !! "sleep_start" = Some s /\
    columns df !! "sleep_end" = Some e /\
    columns df !! "quality" = Some (NumS q) /\
    to_datetime d = Ok d' /\ to_datetime s = Ok s' /\ to_datetime e = Ok e' /\
    Forall (fun v => fleb (F 0) v = true /\ fleb v (F 100) = true) q.
Proof.
  unfold Processor.validate_data.
  rewrite (stmt_bind_ok _ _ df df (elements (dom (columns df)))) by reflexivity.
  destruct (forallb _ required_columns) eqn:Hreq; cbn [negb]; [|discriminate].
  apply required_columns_present in Hreq.
  unfold required_columns in Hreq.
  apply Forall_cons in Hreq as [[d Hd] Hreq]. apply Forall_cons in Hreq as [[s Hs] Hreq].
  apply Forall_cons in Hreq as [[e He] Hreq]. apply Forall_cons in Hreq as [[qs Hq] _].
  unfold Processor.convert, load, store, lift, getitem, mbind, stmt_bind.
  rewrite Hd. destruct (Processor.to_datetime _ _ d) as [d'|] eqn:Hd'; [|discriminate].
  cbn [setitem columns]. rewrite lookup_insert_ne by discriminate. rewrite Hs.
  destruct (Processor.to_datetime _ _ s) as [s'|] eqn:Hs'; [|discriminate].
  cbn [setitem columns]. rewrite !lookup_insert_ne by discriminate. rewrite He.
  destruct (Processor.to_datetime _ _ e) as [e'|] eqn:He'; [|discriminate].
  cbn [setitem columns]. rewrite !lookup_insert_ne by discriminate. rewrite Hq.
  destruct qs as [l|l|l|q]; try discriminate.
  cbn [between]. destruct (all _) eqn:Hall; cbn [negb]; [|discriminate].
  intros _. exists d, s, e, d', s', e', q.
  repeat (split; [assumption || reflexivity|]). by apply between_all.
Qed.

Lemma in_range_numbers (q : list float64) :
  Forall (fun v => fleb (F 0) v = true /\ fleb v (F 100) = true) q ->
  exists xs : list Q, q = map F xs.
Proof.
  induction 1 as [|v q Hv _ (xs & ->)]; [by exists []|].
  destruct v as [x|]; [|destruct Hv as [[=] _]]. by exists (x :: xs).
Qed.

(** A frame that [validate_data] accepted is processed into its feature
    table. *)
Lemma process_after_validate (df : DataFrame) :
  well_formed df -> snd (validate_data df) = Ok true ->
  exists (dates starts ends : list Z) (qualities : list Q),
    length dates = index_len df /\ length starts = index_len df /\
    length ends = index_len df /\ length qualities = index_len df /\
    Forall (fun x => 0 <= x <= 100) qualities /\
    index_len (fst (validate_data df)) = index_len df /\
    columns (fst (validate_data df)) !! "quality" = Some (NumS (map F qualities)) /\
    process_sleep_data (fst (validate_data df))
    = Ok (features_of dates starts ends (map F qualities) (fst (validate_data df))).
Proof.
  intros Hwf Hok.
  destruct (validate_data_inv df Hok)
    as (d & s & e & d' & s' & e' & q & Hd & Hs & He & Hq & Hd' & Hs' & He' & Hrange).
  rewrite (validate_data_accepts parse_datetime number_datetime df d s e d' s' e' q)
    by assumption.
  cbn [fst].
  destruct (to_datetime_dtype _ _ _ _ Hd') as (dates & -> & Hld).
  destruct (to_datetime_dtype _ _ _ _ Hs') as (starts & -> & Hls).
  destruct (to_datetime_dtype _ _ _ _ He') as (ends & -> & Hle).
  destruct (in_range_numbers q Hrange) as (qualities & ->).
  exists dates, starts, ends, qualities.
  rewrite Hld, Hls, Hle, (Hwf _ _ Hd), (Hwf _ _ Hs), (Hwf _ _ He).
  pose proof (Hwf _ _ Hq) as Hlq. simpl in Hlq. rewrite length_map in Hlq.
  repeat (split; [reflexivity || assumption|]).
  split.
  { clear -Hrange. induction qualities as [|x xs IH]; [constructor|].
    apply Forall_cons in Hrange as [[H0 H100] Hrange]. constructor; [|by apply IH].
    simpl in H0, H100. apply Qle_bool_iff in H0, H100. split; assumption. }
  split; [reflexivity|].
  split; [unfold converted; simpl; by rewrite !lookup_insert_ne by discriminate|].
  apply process_sleep_data_features; unfold converted; simpl.
  - rewrite !lookup_insert_ne by discriminate. apply lookup_insert_eq.
  - rewrite lookup_insert_ne by discriminate. apply lookup_insert_eq.
  - apply lookup_insert_eq.
  - rewrite !lookup_insert_ne by discriminate. exact Hq.
Qed.

End Pipeline.

Section ProcessedTables.
Import Processor Analyzer.
Variable parse_datetime : string -> option Z.
Variable number_datetime : float64 -> option Z.
Variable sqrt : Q -> Q.

Abbreviation process_sleep_data := (process_sleep_data parse_datetime number_datetime).
Abbreviation validate_data := (Processor.validate_data parse_datetime number_datetime).

Lemma features_of_columns (dates starts ends : list Z) (qualities : list float64)
    (df : DataFrame) :
  let features := features_of dates starts ends qualities df in
  index_len features = index_len df /\
  columns features !! "sleep_start" = Some (DatetimeS starts) /\
  columns features !! "sleep_end" = Some (DatetimeS ends) /\
  columns features !! "duration" = Some (NumS (map F (zip_with hours_asleep starts ends))) /\
  columns features !! "latency" = Some (NumS (map F (zip_with minutes_late dates starts))) /\
  columns features !! "rolling_avg_duration"
    = Some (NumS (roll_mean 7 1 (map F (zip_with hours_asleep starts ends)))) /\
  columns features !! "rolling_avg_quality" = Some (NumS (roll_mean 7 1 qualities)).
Proof.
  unfold features_of. cbn [setitem columns index_len].
  split; [reflexivity|].
  repeat split;
    repeat first [ apply lookup_insert_eq | rewrite lookup_insert_ne by discriminate ].
Qed.

Lemma features_of_quality (dates starts ends : list Z) (qualities : list float64)
    (df : DataFrame) :
  columns df !! "quality" = Some (NumS qualities) ->
  columns (features_of dates starts ends qualities df) !! "quality" = Some (NumS qualities).
Proof.
  intros Hq. unfold features_of. cbn [setitem columns].
  by rewrite !lookup_insert_ne by discriminate.
Qed.








End ProcessedTables.

(** ** The processor on the sample data *)



(** * Further properties of the code *)

(** ** [validate_data]: what it raises, and what it leaves behind *)

Section ValidationErrors.
Import Processor.
Variable parse_datetime : string -> option Z.
Variable number_datetime : float64 -> option Z.

Abbreviation to_datetime := (Processor.to_datetime parse_datetime number_datetime).
Abbreviation validate_data := (Processor.validate_data parse_datetime number_datetime).

Definition missing_columns_message : string :=
  "Missing required columns. Please ensure your CSV contains: date, sleep_start, sleep_end, quality".

Definition quality_range_message : string :=
  "Sleep quality scores must be between 0 and 100".

(** A frame that lacks one of the four required columns is refused with
    the message about missing columns, and is left as it was. *)
Theorem validate_data_missing_column (df : DataFrame) (c : string) :
  In c required_columns ->
  columns df !! c = None ->
  validate_data df = (df, Raise (ValueError missing_columns_message)).
Proof.
  intros Hin Hnone. unfold Processor.validate_data.
  rewrite (stmt_bind_ok _ _ df df (elements (dom (columns df)))) by reflexivity.
  destruct (forallb _ required_columns) eqn:Hreq; cbn [negb]; [|reflexivity].
  apply required_columns_present in Hreq.
  rewrite List.Forall_forall in Hreq. destruct (Hreq c Hin) as [s Hs]. congruence.
Qed.

Lemma validate_data_steps (df : DataFrame) (d s e : Series) :
  columns df !! "date" = Some d ->
  columns df !! "sleep_start" = Some s ->
  columns df !! "sleep_end" = Some e ->
  is_Some (columns df !! "quality") ->
  validate_data df =
    (convert parse_datetime number_datetime "date";;
     convert parse_datetime number_datetime "sleep_start";;
     convert parse_datetime number_datetime "sleep_end";;
     quality ← load "quality";
     in_range ← lift (between quality 0 100);
     if negb (all in_range)
     then raise (ValueError quality_range_message)
     else mret true) df.
Proof.
  intros Hd Hs He Hq. unfold Processor.validate_data.
  rewrite (stmt_bind_ok _ _ df df (elements (dom (columns df)))) by reflexivity.
  assert (Hreq : forallb (fun col => bool_decide (col ∈ elements (dom (columns df))))
                   required_columns = true).
  { apply required_columns_present. unfold required_columns.
    repeat constructor; try (eexists; eassumption). exact Hq. }
  rewrite Hreq. reflexivity.
Qed.

(** When the time columns parse but some quality is outside [0, 100]
    (or is NaN), the frame is refused with the message about the range,
    after the three time columns have been converted: the conversion
    stays in the frame. *)
Theorem validate_data_quality_out_of_range
    (df : DataFrame) (d s e d' s' e' : Series) (q : list float64) :
  columns df !! "date" = Some d ->
  columns df !! "sleep_start" = Some s ->
  columns df !! "sleep_end" = Some e ->
  columns df !! "quality" = Some (NumS q) ->
  to_datetime d = Ok d' -> to_datetime s = Ok s' -> to_datetime e = Ok e' ->
  Exists (fun v => fleb (F 0) v && fleb v (F 100) = false) q ->
  validate_data df =
    (setitem "sleep_end" e' (setitem "sleep_start" s' (setitem "date" d' df)),
     Raise (ValueError quality_range_message)).
Proof.
  intros Hd Hs He Hq Hd' Hs' He' Hbad.
  rewrite (validate_data_steps df d s e Hd Hs He) by (eexists; exact Hq).
  rewrite (stmt_bind_ok _ _ df _ tt (convert_ok _ _ "date" df d d' Hd Hd')).
  rewrite (stmt_bind_ok _ _ _ _ tt
             (convert_ok _ _ "sleep_start" (setitem "date" d' df) s s'
                ltac:(simpl; rewrite lookup_insert_ne by discriminate; exact Hs) Hs')).
  rewrite (stmt_bind_ok _ _ _ _ tt
             (convert_ok _ _ "sleep_end" (setitem "sleep_start" s' (setitem "date" d' df)) e e'
                ltac:(simpl; rewrite !lookup_insert_ne by discriminate; exact He) He')).
  set (after := setitem "sleep_end" e' (setitem "sleep_start" s' (setitem "date" d' df))).
  rewrite (stmt_bind_ok _ _ _ after (NumS q)).
  2:{ unfold load, getitem, after. simpl.
      rewrite !lookup_insert_ne by discriminate. rewrite Hq. reflexivity. }
  rewrite (stmt_bind_ok _ _ _ after
             (map (fun v => fleb (F 0) v && fleb v (F 100)) q)) by reflexivity.
  assert (Hall : all (map (fun v => fleb (F 0) v && fleb v (F 100)) q) = false).
  { destruct (all _) eqn:E; [|reflexivity]. exfalso.
    apply between_all in E. rewrite List.Forall_forall in E.
    apply List.Exists_exists in Hbad as (v & Hv & Hfalse).
    destruct (E v Hv) as [H0 H100]. rewrite H0, H100 in Hfalse. discriminate. }
  rewrite Hall. reflexivity.
Qed.

(** When [sleep_end] does not parse, the error of the parser comes out
    and the frame keeps the conversion of [date] and [sleep_start] made
    before it. *)
Theorem validate_data_parse_error
    (df : DataFrame) (d s e d' s' : Series) (err : exn) :
  columns df !! "date" = Some d ->
  columns df !! "sleep_start" = Some s ->
  columns df !! "sleep_end" = Some e ->
  is_Some (columns df !! "quality") ->
  to_datetime d = Ok d' -> to_datetime s = Ok s' -> to_datetime e = Raise err ->
  validate_data df = (setitem "sleep_start" s' (setitem "date" d' df), Raise err).
Proof.
  intros Hd Hs He Hq Hd' Hs' He'.
  rewrite (validate_data_steps df d s e Hd Hs He Hq).
  rewrite (stmt_bind_ok _ _ df _ tt (convert_ok _ _ "date" df d d' Hd Hd')).
  rewrite (stmt_bind_ok _ _ _ _ tt
             (convert_ok _ _ "sleep_start" (setitem "date" d' df) s s'
                ltac:(simpl; rewrite lookup_insert_ne by discriminate; exact Hs) Hs')).
  apply stmt_bind_raise. unfold Processor.convert.
  rewrite (stmt_bind_ok _ _ _ (setitem "sleep_start" s' (setitem "date" d' df)) e).
  2:{ unfold load, getitem. simpl.
      rewrite !lookup_insert_ne by discriminate. rewrite He. reflexivity. }
  apply stmt_bind_raise. unfold lift. rewrite He'. reflexivity.
Qed.

End ValidationErrors.

(** ** [process_sleep_data]: the table it makes *)

Section ProcessedFrames.
Import Processor.
Variable parse_datetime : string -> option Z.
Variable number_datetime : float64 -> option Z.

Abbreviation to_datetime := (Processor.to_datetime parse_datetime number_datetime).
Abbreviation validate_data := (Processor.validate_data parse_datetime number_datetime).
Abbreviation process_sleep_data := (Processor.process_sleep_data parse_datetime number_datetime).

Lemma frame_ext (df1 df2 : DataFrame) :
  index_len df1 = index_len df2 ->
  (forall c, columns df1 !! c = columns df2 !! c) ->
  df1 = df2.
Proof.
  destruct df1 as [n1 c1], df2 as [n2 c2]. simpl. intros -> H. f_equal. by apply map_eq.
Qed.

Lemma well_formed_setitem (c : string) (s : Series) (df : DataFrame) :
  well_formed df -> series_len s = index_len df -> well_formed (setitem c s df).
Proof.
  intros Hwf Hlen c' s'. unfold setitem. simpl. rewrite lookup_insert.
  case_decide; [intros [= <-]; exact Hlen | apply Hwf].
Qed.

(** [process_sleep_data] on a frame whose time columns parse. *)
Lemma process_sleep_data_parsed (df : DataFrame) (d s e : Series) (dates starts ends : list Z)
    (qualities : list float64) :
  columns df !! "date" = Some d ->
  columns df !! "sleep_start" = Some s ->
  columns df !! "sleep_end" = Some e ->
  columns df !! "quality" = Some (NumS qualities) ->
  to_datetime d = Ok (DatetimeS dates) ->
  to_datetime s = Ok (DatetimeS starts) ->
  to_datetime e = Ok (DatetimeS ends) ->
  process_sleep_data df = Ok (features_of dates starts ends qualities df).
Proof.
  intros Hd Hs He Hq Hd' Hs' He'.
  unfold Processor.process_sleep_data, process_statements, Processor.convert,
    load, store, lift, getitem, mbind, stmt_bind.
  rewrite Hd, Hd'. cbn [setitem columns index_len].
  rewrite lookup_insert_ne by discriminate. rewrite Hs, Hs'. cbn [setitem columns index_len].
  rewrite !lookup_insert_ne by discriminate. rewrite He, He'.
  cbn [setitem columns index_len].
  rewrite lookup_insert_eq.
  rewrite lookup_insert_ne by discriminate. rewrite lookup_insert_eq.
  cbn [series_sub dt_total_seconds series_div setitem columns index_len].
  rewrite !lookup_insert_ne by discriminate. rewrite lookup_insert_eq.
  cbn [dt_normalize add_hours].
  rewrite !lookup_insert_ne by discriminate. rewrite lookup_insert_eq.
  cbn [series_sub dt_total_seconds series_div setitem columns index_len].
  rewrite !lookup_insert_ne by discriminate. rewrite lookup_insert_eq.
  cbn [dt_day_name setitem columns index_len].
  rewrite !lookup_insert_ne by discriminate. rewrite lookup_insert_eq.
  cbn [rolling_mean setitem columns index_len].
  rewrite !lookup_insert_ne by discriminate. rewrite Hq.
  cbn [rolling_mean setitem columns index_len].
  rewrite zip_with_sub_hours, zip_with_sub_minutes. reflexivity.
Qed.

(** Columns assigned twice: only the last assignment counts. *)
Lemma features_of_converted (dates starts ends : list Z) (qualities : list float64)
    (d s e : Series) (df : DataFrame) :
  features_of dates starts ends qualities (converted d s e df)
  = features_of dates starts ends qualities df.
Proof.
  apply frame_ext; [reflexivity|]. intros c.
  unfold features_of, converted. cbn [setitem columns].
  repeat match goal with
         | |- <[?k:=_]> _ !! c = _ =>
           destruct (decide (c = k)) as [->|?];
           [ repeat first [ rewrite lookup_insert_eq
                          | rewrite lookup_insert_ne by discriminate ];
             reflexivity
           | rewrite !(lookup_insert_ne _ k c) by congruence ]
         end.
  by rewrite !lookup_insert_ne by congruence.
Qed.

(** The conversion that [validate_data] leaves in its argument is not
    needed by [process_sleep_data]: on a frame that [validate_data]
    accepts, processing the frame as it was read gives the same table as
    processing the frame that validation left behind. *)
Theorem process_sleep_data_before_or_after_validation (df : DataFrame) :
  snd (validate_data df) = Ok true ->
  process_sleep_data df = process_sleep_data (fst (validate_data df)).
Proof.
  intros Hok.
  destruct (validate_data_inv _ _ df Hok)
    as (d & s & e & d' & s' & e' & q & Hd & Hs & He & Hq & Hd' & Hs' & He' & Hrange).
  rewrite (validate_data_accepts parse_datetime number_datetime df d s e d' s' e' q)
    by assumption.
  cbn [fst].
  destruct (to_datetime_dtype _ _ _ _ Hd') as (dates & -> & _).
  destruct (to_datetime_dtype _ _ _ _ Hs') as (starts & -> & _).
  destruct (to_datetime_dtype _ _ _ _ He') as (ends & -> & _).
  rewrite (process_sleep_data_parsed df d s e dates starts ends q) by assumption.
  rewrite (process_sleep_data_features parse_datetime number_datetime
             (converted (DatetimeS dates) (DatetimeS starts) (DatetimeS ends) df)
             dates starts ends q).
  - by rewrite features_of_converted.
  - unfold converted; simpl. rewrite !lookup_insert_ne by discriminate. apply lookup_insert_eq.
  - unfold converted; simpl. rewrite lookup_insert_ne by discriminate. apply lookup_insert_eq.
  - unfold converted; simpl. apply lookup_insert_eq.
  - unfold converted; simpl. by rewrite !lookup_insert_ne by discriminate.
Qed.

Lemma features_of_feature_table (dates starts ends : list Z) (qualities : list float64)
    (df : DataFrame) :
  well_formed df ->
  length dates = index_len df -> length starts = index_len df ->
  length ends = index_len df -> length qualities = index_len df ->
  columns df !! "quality" = Some (NumS qualities) ->
  feature_table (features_of dates starts ends qualities df).
Proof.
  intros Hwf Hld Hls Hle Hlq Hq.
  unfold feature_table, feature_table_b. apply andb_true_iff. split.
  - apply well_formed_b_spec. unfold features_of.
    repeat (apply well_formed_setitem;
            [|cbn [series_len setitem index_len];
              rewrite ?roll_mean_length, ?length_map, ?length_zip_with; lia]).
    exact Hwf.
  - unfold feature_schema, column_dtype, features_of. cbn [forallb fst snd setitem columns].
    repeat (rewrite lookup_insert_ne by discriminate).
    rewrite ?lookup_insert_eq.
    repeat match goal with
           | |- context [<[?k:=?v]> ?m !! ?k'] =>
             first [ rewrite (lookup_insert_eq m k v)
                   | rewrite (lookup_insert_ne m k k' v) by discriminate ]
           end.
    rewrite Hq. reflexivity.
Qed.

Lemma accepted_frame_feature_table (df : DataFrame) :
  well_formed df ->
  snd (validate_data df) = Ok true ->
  returns (process_sleep_data (fst (validate_data df)))
    (fun features => feature_table features /\ index_len features = index_len df).
Proof.
  intros Hwf Hok.
  destruct (validate_data_inv _ _ df Hok)
    as (d & s & e & d' & s' & e' & q & Hd & Hs & He & Hq & Hd' & Hs' & He' & Hrange).
  destruct (process_after_validate parse_datetime number_datetime df Hwf Hok)
    as (dates & starts & ends & qualities & Hld & Hls & Hle & Hlq & _ & Hrows & Hvq & Hprocess).
  rewrite Hprocess. cbn [returns]. split; [|exact Hrows].
  apply features_of_feature_table; rewrite ?Hrows, ?length_map; try assumption.
  rewrite (validate_data_accepts parse_datetime number_datetime df d s e d' s' e' q)
    by assumption.
  cbn [fst]. unfold converted.
  destruct (to_datetime_dtype _ _ _ _ Hd') as (l1 & -> & H1).
  destruct (to_datetime_dtype _ _ _ _ Hs') as (l2 & -> & H2).
  destruct (to_datetime_dtype _ _ _ _ He') as (l3 & -> & H3).
  repeat (apply well_formed_setitem; [|cbn [series_len setitem index_len]]).
  - exact Hwf.
  - rewrite H1. apply (Hwf _ _ Hd).
  - rewrite H2. apply (Hwf _ _ Hs).
  - rewrite H3. apply (Hwf _ _ He).
Qed.

(** Whatever [validate_data] accepts is made into a feature table: a
    well-formed frame with the nine columns of the schema, on which the
    statistics and the detector can run. *)
Theorem process_sleep_data_makes_feature_table (df : DataFrame) :
  well_formed df ->
  snd (validate_data df) = Ok true ->
  returns (process_sleep_data (fst (validate_data df)))
    (fun features => feature_table features /\ index_len features = index_len df).
Proof. exact (accepted_frame_feature_table df). Qed.

(** What a frame holds when [process_sleep_data] returns on it. *)
Lemma process_sleep_data_inv (df features : DataFrame) :
  process_sleep_data df = Ok features ->
  exists (d s e : Series) (dates starts ends : list Z) (qualities : list float64),
    columns df !! "date" = Some d /\
    columns df !! "sleep_start" = Some s /\
    columns df !! "sleep_end" = Some e /\
    columns df !! "quality" = Some (NumS qualities) /\
    to_datetime d = Ok (DatetimeS dates) /\
    to_datetime s = Ok (DatetimeS starts) /\
    to_datetime e = Ok (DatetimeS ends) /\
    features = features_of dates starts ends qualities df.
Proof.
  intros Hp.
  assert (Hd : exists d dates, columns df !! "date" = Some d /\
                               to_datetime d = Ok (DatetimeS dates)).
  { revert Hp. unfold Processor.process_sleep_data, process_statements, Processor.convert,
      load, store, lift, getitem, mbind, stmt_bind.
    destruct (columns df !! "date") as [d|]; [|discriminate].
    destruct (Processor.to_datetime _ _ d) as [d'|] eqn:Hd'; [|discriminate].
    destruct (to_datetime_dtype _ _ _ _ Hd') as (dates & -> & _). eauto. }
  destruct Hd as (d & dates & Hd & Hd').
  assert (Hs : exists s starts, columns df !! "sleep_start" = Some s /\
                                to_datetime s = Ok (DatetimeS starts)).
  { revert Hp. unfold Processor.process_sleep_data, process_statements, Processor.convert,
      load, store, lift, getitem, mbind, stmt_bind.
    rewrite Hd, Hd'. cbn [setitem columns].
    rewrite lookup_insert_ne by discriminate.
    destruct (columns df !! "sleep_start") as [s|]; [|discriminate].
    destruct (Processor.to_datetime _ _ s) as [s'|] eqn:Hs'; [|discriminate].
    destruct (to_datetime_dtype _ _ _ _ Hs') as (starts & -> & _). eauto. }
  destruct Hs as (s & starts & Hs & Hs').
  assert (He : exists e ends, columns df !! "sleep_end" = Some e /\
                              to_datetime e = Ok (DatetimeS ends)).
  { revert Hp. unfold Processor.process_sleep_data, process_statements, Processor.convert,
      load, store, lift, getitem, mbind, stmt_bind.
    rewrite Hd, Hd'. cbn [setitem columns].
    rewrite lookup_insert_ne by discriminate. rewrite Hs, Hs'. cbn [setitem columns].
    rewrite !lookup_insert_ne by discriminate.
    destruct (columns df !! "sleep_end") as [e|]; [|discriminate].
    destruct (Processor.to_datetime _ _ e) as [e'|] eqn:He'; [|discriminate].
    destruct (to_datetime_dtype _ _ _ _ He') as (ends & -> & _). eauto. }
  destruct He as (e & ends & He & He').
  assert (Hq : exists qualities, columns df !! "quality" = Some (NumS qualities)).
  { revert Hp. unfold Processor.process_sleep_data, process_statements, Processor.convert,
      load, store, lift, getitem, mbind, stmt_bind.
    rewrite Hd, Hd'. cbn [setitem columns index_len].
    rewrite lookup_insert_ne by discriminate. rewrite Hs, Hs'. cbn [setitem columns index_len].
    rewrite !lookup_insert_ne by discriminate. rewrite He, He'.
    cbn [setitem columns index_len].
    rewrite lookup_insert_eq.
    rewrite lookup_insert_ne by discriminate. rewrite lookup_insert_eq.
    cbn [series_sub dt_total_seconds series_div setitem columns index_len].
    rewrite !lookup_insert_ne by discriminate. rewrite lookup_insert_eq.
    cbn [dt_normalize add_hours].
    rewrite !lookup_insert_ne by discriminate. rewrite lookup_insert_eq.
    cbn [series_sub dt_total_seconds series_div setitem columns index_len].
    rewrite !lookup_insert_ne by discriminate. rewrite lookup_insert_eq.
    cbn [dt_day_name setitem columns index_len].
    rewrite !lookup_insert_ne by discriminate. rewrite lookup_insert_eq.
    cbn [rolling_mean setitem columns index_len].
    rewrite !lookup_insert_ne by discriminate.
    destruct (columns df !! "quality") as [[l|l|l|l]|]; try discriminate. eauto. }
  destruct Hq as (qualities & Hq).
  exists d, s, e, dates, starts, ends, qualities.
  repeat (split; [assumption|]).
  rewrite (process_sleep_data_parsed df d s e dates starts ends qualities) in Hp by assumption.
  by injection Hp as <-.
Qed.

Lemma features_of_twice (dates starts ends : list Z) (qualities : list float64)
    (df : DataFrame) :
  features_of dates starts ends qualities (features_of dates starts ends qualities df)
  = features_of dates starts ends qualities df.
Proof.
  apply frame_ext; [reflexivity|]. intros c.
  unfold features_of. cbn [setitem columns].
  repeat match goal with
         | |- <[?k:=_]> _ !! c = _ =>
           destruct (decide (c = k)) as [->|?];
           [ repeat first [ rewrite lookup_insert_eq
                          | rewrite lookup_insert_ne by discriminate ];
             reflexivity
           | rewrite !(lookup_insert_ne _ k c) by congruence ]
         end.
  by rewrite !lookup_insert_ne by congruence.
Qed.

(** Processing is idempotent: the table that [process_sleep_data]
    returns is processed into itself. *)
Theorem process_sleep_data_idempotent (df features : DataFrame) :
  process_sleep_data df = Ok features ->
  process_sleep_data features = Ok features.
Proof.
  intros Hp.
  destruct (process_sleep_data_inv df features Hp)
    as (d & s & e & dates & starts & ends & q & Hd & Hs & He & Hq & Hd' & Hs' & He' & ->).
  destruct (features_of_columns dates starts ends q df) as (_ & Hcs & Hce & _).
  rewrite (process_sleep_data_features parse_datetime number_datetime _ dates starts ends q).
  - by rewrite features_of_twice.
  - unfold features_of. cbn [setitem columns].
    rewrite !lookup_insert_ne by discriminate. apply lookup_insert_eq.
  - exact Hcs.
  - exact Hce.
  - by apply features_of_quality.
Qed.


End ProcessedFrames.

(** ** The detector: how its rules and reports compose *)

Section DetectorReports.
Import Detector.
Variable sqrt : Q -> Q.
Variable format_2f : float64 -> string.

Definition all_disorders : list string :=
  ["Insomnia"; "Irregular Sleep-Wake Rhythm"; "Delayed Sleep Phase"].

(** The entry of [risk_levels] and of [detected_disorders] that a
    detector's risk earns: none unless the risk level is positive. *)
Definition reported (risk : Risk) : option Risk :=
  if Qltb 0 (risk_level risk) then Some risk else None.
Definition named (name : string) (risk : Risk) : list string :=
  if Qltb 0 (risk_level risk) then [name] else [].

(** [analyze_sleep_patterns] reports a disorder exactly when the risk
    level of its detector is positive: the names come in the order
    insomnia, irregular rhythm, delayed sleep phase, [risk_levels] holds
    the dictionaries of the reported disorders and nothing else, and
    there are four recommendations for each reported disorder. *)
Theorem analyze_reports_positive_risks (self : SleepDisorderDetector) (df : DataFrame)
    (ri rr rd : Risk) :
  _detect_insomnia self df = Ok ri ->
  _detect_irregular_rhythm sqrt format_2f self df = Ok rr ->
  _detect_delayed_sleep self df = Ok rd ->
  returns (analyze_sleep_patterns sqrt format_2f self df)
    (fun results =>
       detected_disorders results =
         named "Insomnia" ri ++ named "Irregular Sleep-Wake Rhythm" rr
           ++ named "Delayed Sleep Phase" rd /\
       risk_levels results !! "Insomnia" = reported ri /\
       risk_levels results !! "Irregular Sleep-Wake Rhythm" = reported rr /\
       risk_levels results !! "Delayed Sleep Phase" = reported rd /\
       (forall name, ~ In name all_disorders -> risk_levels results !! name = None) /\
       length (recommendations results) = (4 * length (detected_disorders results))%nat).
Proof.
  intros Hi Hr Hd. unfold analyze_sleep_patterns. rewrite Hi, Hr, Hd.
  cbn [mbind result_bind returns]. unfold record_risk, named, reported.
  destruct (Qltb 0 (risk_level ri)), (Qltb 0 (risk_level rr)), (Qltb 0 (risk_level rd));
    cbn [detected_disorders risk_levels recommendations app];
    (split; [reflexivity|]);
    (split; [by repeat first [rewrite lookup_insert_eq | rewrite lookup_insert_ne by discriminate
                             | rewrite lookup_empty]|]);
    (split; [by repeat first [rewrite lookup_insert_eq | rewrite lookup_insert_ne by discriminate
                             | rewrite lookup_empty]|]);
    (split; [by repeat first [rewrite lookup_insert_eq | rewrite lookup_insert_ne by discriminate
                             | rewrite lookup_empty]|]);
    (split; [|reflexivity]);
    intros name Hname; unfold all_disorders in Hname; simpl in Hname;
    repeat (rewrite lookup_insert_ne by (intros <-; tauto)); apply lookup_empty.
Qed.

(** [_generate_recommendations] looks only at which of the three names
    occur in its argument: order, repetitions and other names make no
    difference, and each name that occurs brings four recommendations. *)
Theorem recommendations_by_membership (l1 l2 : list string) :
  (forall name, In name all_disorders -> (In name l1 <-> In name l2)) ->
  _generate_recommendations l1 = _generate_recommendations l2 /\
  length (_generate_recommendations l1)
  = (4 * length (filter (fun name => name ∈ l1) all_disorders))%nat.
Proof.
  intros Hsame.
  assert (Hdec : forall (name : string) (l : list string),
             bool_decide (name ∈ l) = true <-> In name l).
  { intros name l. rewrite bool_decide_eq_true. apply list_elem_of_In. }
  assert (Heq : forall name, In name all_disorders ->
                  bool_decide (name ∈ l1) = bool_decide (name ∈ l2)).
  { intros name Hin. specialize (Hsame name Hin).
    destruct (bool_decide (name ∈ l1)) eqn:E1, (bool_decide (name ∈ l2)) eqn:E2;
      try reflexivity.
    - apply Hdec, Hsame, Hdec in E1. congruence.
    - apply Hdec, Hsame, Hdec in E2. congruence. }
  split.
  - unfold _generate_recommendations.
    rewrite (Heq "Insomnia"), (Heq "Irregular Sleep-Wake Rhythm"),
      (Heq "Delayed Sleep Phase") by (unfold all_disorders; simpl; tauto).
    reflexivity.
  - unfold _generate_recommendations, all_disorders.
    rewrite !filter_cons, filter_nil.
    destruct (bool_decide ("Insomnia" ∈ l1)) eqn:E1,
             (bool_decide ("Irregular Sleep-Wake Rhythm" ∈ l1)) eqn:E2,
             (bool_decide ("Delayed Sleep Phase" ∈ l1)) eqn:E3;
      repeat match goal with
             | H : bool_decide _ = true |- _ => apply bool_decide_eq_true in H
             | H : bool_decide _ = false |- _ => apply bool_decide_eq_false in H
             end;
      repeat case_decide; try tauto; reflexivity.
Qed.


(** A frame without a [duration] column, such as the data read from the
    CSV file before it is processed, makes the detector raise a
    [KeyError] for that column. *)
Theorem analyze_needs_processed_table (self : SleepDisorderDetector) (df : DataFrame) :
  columns df !! "duration" = None ->
  analyze_sleep_patterns sqrt format_2f self df = Raise (KeyError "duration").
Proof.
  intros H. unfold analyze_sleep_patterns, _detect_insomnia, getitem. rewrite H. reflexivity.
Qed.

(** The scores a detector can return: the sums of the increments of its
    rules that fired. None reaches 1, so the cap [min(risk_level, 1.0)]
    never lowers a risk level. *)
Theorem detector_scores_are_rule_sums (self : SleepDisorderDetector) (df : DataFrame) :
  feature_table df ->
  returns (_detect_insomnia self df)
    (fun r => (risk_level r == 0 /\ confidence r == 0) \/
              (risk_level r == 0.4 /\ confidence r == 0.3) \/
              (risk_level r == 0.3 /\ confidence r == 0.3) \/
              (risk_level r == 0.7 /\ confidence r == 0.6)) /\
  returns (_detect_irregular_rhythm sqrt format_2f self df)
    (fun r => (risk_level r == 0 /\ confidence r == 0) \/
              (risk_level r == 0.5 /\ confidence r == 0.4) \/
              (risk_level r == 0.3 /\ confidence r == 0.3) \/
              (risk_level r == 0.8 /\ confidence r == 0.7)) /\
  returns (_detect_delayed_sleep self df)
    (fun r => (risk_level r == 0 /\ confidence r == 0) \/
              (risk_level r == 0.4 /\ confidence r == 0.3) \/
              (risk_level r == 0.8 /\ confidence r == 0.6)).
Proof.
  intros Hft.
  destruct (feature_table_number df "duration" Hft) as (durations & Hd & _); [schema_member|].
  destruct (feature_table_number df "quality" Hft) as (qualities & Hq & _); [schema_member|].
  destruct (feature_table_datetime df "sleep_start" Hft) as (starts & Hs & _); [schema_member|].
  destruct (feature_table_datetime df "sleep_end" Hft) as (ends & He & _); [schema_member|].
  split; [|split].
  - eapply returns_impl; [|apply (detect_insomnia_scored self df _ _ Hd Hq)].
    intros r [Hr Hc]. rewrite Hr, Hc.
    destruct (at_least _ df 0.3), (at_least _ df 0.3);
      [right; right; right | right; left | right; right; left | left]; split; ring.
  - eapply returns_impl; [|apply (detect_irregular_rhythm_scored sqrt format_2f self df _ _ Hs He)].
    intros r [Hr Hc]. rewrite Hr, Hc.
    destruct (fgtb _ _), (fgtb _ _);
      [right; right; right | right; left | right; right; left | left]; split; ring.
  - eapply returns_impl; [|apply (detect_delayed_sleep_scored self df _ _ Hs He)].
    intros r [Hr Hc]. rewrite Hr, Hc.
    destruct (at_least _ df 0.4), (at_least _ df 0.4);
      [right; right | right; left | right; left | left]; split; ring.
Qed.

End DetectorReports.

Section DetectorOnTables.
Import Detector.
Variable sqrt : Q -> Q.
Variable format_2f : float64 -> string.
Variable parse_datetime : string -> option Z.
Variable number_datetime : float64 -> option Z.

Lemma scored_quiet (r : Risk) (ra ca rb cb : Q) :
  scored false false ra ca rb cb r -> Qltb 0 (risk_level r) = false.
Proof. intros [Hr _]. apply Qltb_false. rewrite Hr. lra. Qed.

Lemma count_from_none (threshold : Q) (l : list Z) :
  Forall (fun t => (inject_Z (hour_of t) < threshold)) l -> count_from threshold l = 0%nat.
Proof.
  unfold count_from, hours. induction 1 as [|t l Ht _ IH]; [reflexivity|].
  cbn [map]. rewrite filter_cons.
  destruct (decide (fgeb (of_Z (hour_of t)) (F threshold) = true)) as [E|E]; [|exact IH].
  exfalso. unfold fgeb, fleb, of_Z in E. apply Qle_bool_iff in E. lra.
Qed.

(** No false alarm. On a feature table that has rows, where no night is
    shorter than 6 hours, no quality is below 70, nobody wakes at 9 or
    later and neither standard deviation of the hours exceeds 1.5, the
    detector reports nothing: no disorder, no risk, no recommendation. *)
Theorem quiet_nights_report_nothing (df : DataFrame)
    (durations qualities : list float64) (starts ends : list Z) :
  (0 < index_len df)%nat ->
  columns df !! "duration" = Some (NumS durations) ->
  columns df !! "quality" = Some (NumS qualities) ->
  columns df !! "sleep_start" = Some (DatetimeS starts) ->
  columns df !! "sleep_end" = Some (DatetimeS ends) ->
  Forall (fun v => fgeb v (F 6.0) = true) durations ->
  Forall (fun v => fgeb v (F 70) = true) qualities ->
  Forall (fun t => (hour_of t < 9)%Z) ends ->
  fgtb (std_values sqrt (hours starts)) (F 1.5) = false ->
  fgtb (std_values sqrt (hours ends)) (F 1.5) = false ->
  analyze_sleep_patterns sqrt format_2f __init__ df
  = Ok {| detected_disorders := []; risk_levels := ∅; recommendations := [] |}.
Proof.
  intros Hrows Hd Hq Hs He Hlong Hgood Hearly Hstd1 Hstd2.
  pose proof (detect_insomnia_scored __init__ df _ _ Hd Hq) as Hi.
  pose proof (detect_irregular_rhythm_scored sqrt format_2f __init__ df _ _ Hs He) as Hr.
  pose proof (detect_delayed_sleep_scored __init__ df _ _ Hs He) as Hdl.
  cbn [insomnia irregular_rhythm delayed_sleep __init__ short_sleep low_quality
       schedule_inconsistency late_bedtime late_wake] in Hi, Hr, Hdl.
  rewrite (count_below_none _ _ Hlong), (count_below_none _ _ Hgood) in Hi.
  rewrite (at_least_none df 0.3 Hrows) in Hi by lra.
  rewrite Hstd1, Hstd2 in Hr.
  rewrite count_from_24, (count_from_none 9 ends) in Hdl.
  2:{ eapply Forall_impl; [exact Hearly|]. intros t Ht. simpl in Ht.
      change 9 with (inject_Z 9). rewrite <- Zlt_Qlt. exact Ht. }
  rewrite (at_least_none df 0.4 Hrows) in Hdl by lra.
  apply returns_Ok in Hi as (ri & Hi & Hqi).
  apply returns_Ok in Hr as (rr & Hr & Hqr).
  apply returns_Ok in Hdl as (rd & Hdl & Hqd).
  unfold analyze_sleep_patterns. rewrite Hi, Hr, Hdl.
  cbn [mbind result_bind]. unfold record_risk.
  rewrite (scored_quiet _ _ _ _ _ Hqi), (scored_quiet _ _ _ _ _ Hqr),
    (scored_quiet _ _ _ _ _ Hqd).
  reflexivity.
Qed.

(** Each rule that fires leaves one line of evidence: a detector returns
    no evidence exactly when its risk level is 0, and then its
    confidence is 0 as well. *)
Theorem evidence_iff_risk (self : SleepDisorderDetector) (df : DataFrame) :
  feature_table df ->
  let sound (r : Risk) :=
    (evidence r = [] <-> risk_level r == 0) /\
    (risk_level r == 0 <-> confidence r == 0) /\
    (length (evidence r) <= 2)%nat in
  returns (_detect_insomnia self df) sound /\
  returns (_detect_irregular_rhythm sqrt format_2f self df) sound /\
  returns (_detect_delayed_sleep self df) sound.
Proof.
  intros Hft sound.
  destruct (feature_table_number df "duration" Hft) as (durations & Hd & _); [schema_member|].
  destruct (feature_table_number df "quality" Hft) as (qualities & Hq & _); [schema_member|].
  destruct (feature_table_datetime df "sleep_start" Hft) as (starts & Hs & _); [schema_member|].
  destruct (feature_table_datetime df "sleep_end" Hft) as (ends & He & _); [schema_member|].
  assert (Hrules : forall (a b : bool) (ra ca rb cb : Q) (ma mb : string),
             0 < ra -> 0 < rb -> ra + rb <= 1 -> 0 < ca -> 0 < cb ->
             sound (report (let r := no_risk in
                            let r := if a then fire ra ca ma r else r in
                            let r := if b then fire rb cb mb r else r in r))).
  { intros a b ra ca rb cb ma mb Hra Hrb Hsum Hca Hcb. unfold sound.
    destruct a, b; cbn [report fire no_risk risk_level confidence evidence app length];
      rewrite py_min_small by lra;
      repeat split; try intros H;
      first [ discriminate H | reflexivity | lia | lra | (exfalso; lra) ]. }
  split; [|split].
  - unfold _detect_insomnia, getitem. rewrite Hd, Hq.
    cbn [mbind result_bind series_lt series_cmp returns]. apply Hrules; lra.
  - unfold _detect_irregular_rhythm, getitem. rewrite Hs, He.
    cbn [mbind result_bind dt_hour std returns]. apply Hrules; lra.
  - unfold _detect_delayed_sleep, getitem. rewrite Hs, He.
    cbn [mbind result_bind dt_hour series_ge series_cmp returns]. apply Hrules; lra.
Qed.


End DetectorOnTables.

(** ** The statistics on short and empty tables *)

Section ShortTables.
Import Analyzer.
Variable sqrt : Q -> Q.

Lemma finite_length (l : list float64) : (length (finite l) <= length l)%nat.
Proof.
  induction l as [|v l IH]; [reflexivity|]. destruct v as [q|].
  - change (finite (F q :: l)) with (q :: finite l). simpl. lia.
  - change (finite (NaN :: l)) with (finite l). simpl. lia.
Qed.

Lemma std_values_short (l : list float64) :
  (length l < 2)%nat -> std_values sqrt l = NaN.
Proof.
  intros Hlen. unfold std_values, var_values.
  pose proof (finite_length l).
  destruct (Nat.leb_spec (length (finite l)) 1); [reflexivity | lia].
Qed.



(** A table with fewer than two rows is called highly irregular: the
    standard deviation of the bedtime hours is NaN, which fails the three
    comparisons of [get_consistency_interpretation] and lands in its
    last branch. *)
Theorem single_night_is_called_irregular (df : DataFrame) :
  feature_table df ->
  (index_len df < 2)%nat ->
  returns (bedtime_std sqrt df)
    (fun time_std => get_consistency_interpretation time_std
                     = "Highly irregular sleep schedule").
Proof.
  intros Hft Hshort.
  destruct (feature_table_datetime df "sleep_start" Hft) as (starts & Hs & Hls); [schema_member|].
  unfold bedtime_std, getitem. rewrite Hs. cbn [mbind result_bind dt_hour std returns].
  rewrite std_values_short by (rewrite length_map; lia). reflexivity.
Qed.

(** The label of the sleep duration agrees with the efficiency: the mean
    duration is called optimal exactly when the efficiency is at least
    100. *)
Theorem optimal_iff_efficiency_100 (df : DataFrame) (m : Metrics) :
  calculate_sleep_metrics sqrt df = Ok m ->
  get_duration_interpretation (avg_duration m) = "Optimal sleep duration achieved"
  <-> fgeb (efficiency m) (F 100) = true.
Proof.
  unfold calculate_sleep_metrics.
  destruct (getitem df "duration") as [duration|]; [|discriminate].
  cbn [mbind result_bind].
  destruct (mean duration) as [avg|]; [|discriminate]. cbn [mbind result_bind].
  destruct (getitem df "latency") as [latency|]; [|discriminate]. cbn [mbind result_bind].
  destruct (mean latency) as [avg_lat|]; [|discriminate]. cbn [mbind result_bind].
  destruct (getitem df "quality") as [quality|]; [|discriminate]. cbn [mbind result_bind].
  destruct (mean quality) as [avg_q|]; [|discriminate]. cbn [mbind result_bind].
  destruct (std sqrt duration) as [sd|]; [|discriminate]. cbn [mbind result_bind].
  intros [= <-]. cbn [avg_duration efficiency].
  unfold get_duration_interpretation. destruct avg as [a|]; cbn [fgeb fleb fmul fdiv fmap2].
  - destruct (Qle_bool 8 a) eqn:E8.
    + split; [intros _|reflexivity]. apply Qle_bool_iff in E8. apply Qle_bool_iff. 
      assert (a / 8 * 100 == a * (25 # 2)) as -> by field. lra.
    + split.
      * destruct (Qle_bool 7 a), (Qle_bool 6 a); discriminate.
      * intros H. apply Qle_bool_iff in H.
        assert (a / 8 * 100 == a * (25 # 2)) as Hx by field. rewrite Hx in H.
        assert (8 <= a) as H8 by lra. apply Qle_bool_iff in H8. congruence.
  - split; discriminate.
Qed.

(** The range of a column, [max() - min()], is never negative; it is NaN
    exactly when the column holds no number. *)
Theorem range_is_not_negative (l : list float64) :
  match fsub (max_values l) (min_values l) with
  | F r => 0 <= r /\ finite l <> []
  | NaN => finite l = []
  end.
Proof.
  unfold max_values, min_values. destruct (finite l) as [|x xs]; [reflexivity|].
  cbn [fsub fmap2]. split; [|discriminate].
  assert (H : forall a b, a <= b -> foldl Qmin' a xs <= foldl Qmax' b xs).
  { induction xs as [|y ys IH]; intros a b Hab; [exact Hab|].
    cbn [foldl]. apply IH. unfold Qmin', Qmax'.
    destruct (Qle_bool a y) eqn:E1, (Qle_bool b y) eqn:E2;
      repeat match goal with
             | H : Qle_bool _ _ = true |- _ => apply Qle_bool_iff in H
             | H : Qle_bool ?u ?v = false |- _ =>
               assert (v < u) by (apply Qltb_true; unfold Qltb; rewrite H; reflexivity); clear H
             end; lra. }
  specialize (H x x (Qle_refl x)). lra.
Qed.

(** A quality that is NaN is counted in no bucket: the four counts of
    the quality distribution add up to the number of qualities that are
    numbers. *)
Theorem buckets_count_numbers (df : DataFrame) (qualities : list float64) :
  columns df !! "quality" = Some (NumS qualities) ->
  exists excellent good fair poor : nat,
    quality_distribution df =
      Ok {| Excellent := pretty excellent +:+ " nights";
            Good := pretty good +:+ " nights";
            Fair := pretty fair +:+ " nights";
            Poor := pretty poor +:+ " nights" |} /\
    (excellent + good + fair + poor = length (finite qualities))%nat.
Proof.
  intros Hq.
  exists (len_where (excellent_mask qualities)), (len_where (good_mask qualities)),
         (len_where (fair_mask qualities)), (len_where (poor_mask qualities)).
  split; [exact (quality_distribution_masks df qualities Hq)|].
  clear Hq. unfold excellent_mask, good_mask, fair_mask, poor_mask, mask_and.
  induction qualities as [|v l IH]; [reflexivity|].
  cbn [map combine fst snd]. rewrite !len_where_cons.
  destruct v as [q|].
  - change (finite (F q :: l)) with (q :: finite l). cbn [length].
    pose proof (one_bucket q). lia.
  - change (finite (NaN :: l)) with (finite l).
    assert (Hnan : ((if fgeb NaN (F 90) then 1 else 0) +
                    (if fgeb NaN (F 80) && fltb NaN (F 90) then 1 else 0) +
                    (if fgeb NaN (F 70) && fltb NaN (F 80) then 1 else 0) +
                    (if fltb NaN (F 70) then 1 else 0) = 0)%nat) by reflexivity.
    lia.
Qed.

Variable format_f : nat -> float64 -> string.
Variable skew kurtosis normaltest_pvalue : list float64 -> result float64.
Variable groupby_mean_idxmax groupby_std_idxmin : Series -> Series -> result string.
Variable corr : list float64 -> list float64 -> float64.

(** On a table without rows [perform_statistical_analysis] raises,
    whatever the functions of scipy and pandas it calls return: at the
    latest, the most common bedtime [mode()[0]] of no bedtime at all is a
    [KeyError]. *)
Theorem analysis_of_no_rows_raises (df : DataFrame) :
  feature_table df ->
  index_len df = 0%nat ->
  raises (perform_statistical_analysis sqrt format_f skew kurtosis normaltest_pvalue
            groupby_mean_idxmax groupby_std_idxmin corr df) = true.
Proof.
  intros Hft Hzero.
  destruct (feature_table_datetime df "sleep_start" Hft) as (starts & Hs & Hls); [schema_member|].
  assert (Htiming : timing_analysis sqrt format_f df = Raise (KeyError "0")).
  { unfold timing_analysis, getitem. rewrite Hs. cbn [mbind result_bind dt_hours].
    destruct starts; [reflexivity | simpl in Hls; lia]. }
  unfold perform_statistical_analysis.
  destruct (duration_summary sqrt format_f df); [|reflexivity].
  destruct (distribution_analysis format_f skew kurtosis normaltest_pvalue df); [|reflexivity].
  destruct (quality_summary sqrt format_f df); [|reflexivity].
  destruct (quality_distribution df); [|reflexivity].
  cbn [mbind result_bind]. rewrite Htiming. reflexivity.
Qed.

End ShortTables.

(** ** The further properties on sample frames *)

Module Cases.

(** The sample data without its quality column, with a quality above
    100, and with a wake time that is no timestamp. *)
Definition no_quality_csv : DataFrame := {|
  index_len := 2;
  columns := delete "quality" (columns Sample.sample_csv)
|}.
Definition bad_quality_csv : DataFrame :=
  setitem "quality" (NumS [F 85; F 120]) Sample.sample_csv.
Definition bad_time_csv : DataFrame :=
  setitem "sleep_end" (ObjectS ["2023-01-02 07:00:00"; "at dawn"]) Sample.sample_csv.

(** The first night of the sample data alone. *)
Definition one_night_csv : DataFrame := {|
  index_len := 1;
  columns :=
    <["date" := ObjectS ["2023-01-01"]]>
    (<["sleep_start" := ObjectS ["2023-01-01 23:00:00"]]>
    (<["sleep_end" := ObjectS ["2023-01-02 07:00:00"]]>
    (<["quality" := NumS [F 85]]> ∅)))
|}.
Definition one_night : DataFrame := Sample.processed one_night_csv.

(** A feature table in which one quality is missing. *)
Definition missing_quality : DataFrame :=
  setitem "quality" (NumS [F 85; NaN]) Sample.sample_features.

Definition column (df : DataFrame) (c : string) : Series :=
  match columns df !! c with Some s => s | None => ObjectS [] end.

Definition value {A} (default : A) (r : result A) : A :=
  match r with Ok a => a | Raise _ => default end.

Definition risk (r : result Detector.Risk) : Detector.Risk := value Detector.no_risk r.

(** A statistics library that answers NaN to everything. *)
Definition nan_statistic (values : list float64) : result float64 := Ok NaN.
Definition no_day (by_day values : Series) : result string := Ok "".
Definition nan_corr (a b : list float64) : float64 := NaN.

End Cases.

Lemma validate_data_missing_column_witness :
  In "quality" Processor.required_columns /\
  columns Cases.no_quality_csv !! "quality" = None /\
  Sample.validate Cases.no_quality_csv
  = (Cases.no_quality_csv, Raise (ValueError missing_columns_message)).
Proof.
  assert (Hin : In "quality" Processor.required_columns) by (simpl; tauto).
  assert (Hnone : columns Cases.no_quality_csv !! "quality" = None)
    by (vm_compute; reflexivity).
  split; [exact Hin|]. split; [exact Hnone|].
  exact (validate_data_missing_column Sample.iso_datetime Sample.epoch_nanoseconds
           Cases.no_quality_csv "quality" Hin Hnone).
Defined.

Lemma validate_data_quality_out_of_range_witness :
  let df := Cases.bad_quality_csv in
  let stamps c := Cases.value (ObjectS [])
                    (Processor.to_datetime Sample.iso_datetime Sample.epoch_nanoseconds
                       (Cases.column df c)) in
  columns df !! "quality" = Some (NumS [F 85; F 120]) /\
  Exists (fun v => fleb (F 0) v && fleb v (F 100) = false) [F 85; F 120] /\
  Sample.validate df =
    (setitem "sleep_end" (stamps "sleep_end")
       (setitem "sleep_start" (stamps "sleep_start") (setitem "date" (stamps "date") df)),
     Raise (ValueError quality_range_message)).
Proof.
  intros df stamps.
  assert (Hq : columns df !! "quality" = Some (NumS [F 85; F 120]))
    by (vm_compute; reflexivity).
  assert (Hbad : Exists (fun v => fleb (F 0) v && fleb v (F 100) = false) [F 85; F 120])
    by (right; left; reflexivity).
  split; [exact Hq|]. split; [exact Hbad|].
  apply (validate_data_quality_out_of_range Sample.iso_datetime Sample.epoch_nanoseconds df
           (Cases.column df "date") (Cases.column df "sleep_start")
           (Cases.column df "sleep_end") (stamps "date") (stamps "sleep_start")
           (stamps "sleep_end") [F 85; F 120]);
    try exact Hq; try exact Hbad; vm_compute; reflexivity.
Defined.

Lemma validate_data_parse_error_witness :
  let df := Cases.bad_time_csv in
  let stamps c := Cases.value (ObjectS [])
                    (Processor.to_datetime Sample.iso_datetime Sample.epoch_nanoseconds
                       (Cases.column df c)) in
  Processor.to_datetime Sample.iso_datetime Sample.epoch_nanoseconds
    (Cases.column df "sleep_end") = Raise (ParserError "at dawn") /\
  Sample.validate df =
    (setitem "sleep_start" (stamps "sleep_start") (setitem "date" (stamps "date") df),
     Raise (ParserError "at dawn")).
Proof.
  intros df stamps.
  assert (He : Processor.to_datetime Sample.iso_datetime Sample.epoch_nanoseconds
                 (Cases.column df "sleep_end") = Raise (ParserError "at dawn"))
    by (vm_compute; reflexivity).
  split; [exact He|].
  apply (validate_data_parse_error Sample.iso_datetime Sample.epoch_nanoseconds df
           (Cases.column df "date") (Cases.column df "sleep_start")
           (Cases.column df "sleep_end") (stamps "date") (stamps "sleep_start")
           (ParserError "at dawn"));
    try exact He; try (vm_compute; reflexivity).
  vm_compute. eexists. reflexivity.
Defined.

Lemma process_sleep_data_before_or_after_validation_witness :
  snd (Sample.validate Sample.sample_csv) = Ok true /\
  Sample.process Sample.sample_csv = Sample.process (fst (Sample.validate Sample.sample_csv)).
Proof.
  assert (Hok : snd (Sample.validate Sample.sample_csv) = Ok true)
    by (vm_compute; reflexivity).
  split; [exact Hok|].
  exact (process_sleep_data_before_or_after_validation
           Sample.iso_datetime Sample.epoch_nanoseconds Sample.sample_csv Hok).
Defined.

Lemma process_sleep_data_makes_feature_table_witness :
  well_formed Sample.sample_csv /\
  snd (Sample.validate Sample.sample_csv) = Ok true /\
  returns (Sample.process (fst (Sample.validate Sample.sample_csv)))
    (fun features => feature_table features /\ index_len features = 2%nat).
Proof.
  assert (Hwf : well_formed Sample.sample_csv)
    by (apply well_formed_b_spec; vm_compute; reflexivity).
  assert (Hok : snd (Sample.validate Sample.sample_csv) = Ok true)
    by (vm_compute; reflexivity).
  split; [exact Hwf|]. split; [exact Hok|].
  exact (process_sleep_data_makes_feature_table
           Sample.iso_datetime Sample.epoch_nanoseconds Sample.sample_csv Hwf Hok).
Defined.

Lemma process_sleep_data_idempotent_witness :
  Sample.process Sample.sample_csv = Ok Sample.sample_features /\
  Sample.process Sample.sample_features = Ok Sample.sample_features.
Proof.
  assert (Hp : Sample.process Sample.sample_csv = Ok Sample.sample_features)
    by (vm_compute; reflexivity).
  split; [exact Hp|].
  exact (process_sleep_data_idempotent Sample.iso_datetime Sample.epoch_nanoseconds
           Sample.sample_csv Sample.sample_features Hp).
Defined.


Lemma analyze_reports_positive_risks_witness :
  let df := Sample.ten_nights in
  let sqrt := Sample.sqrt9 in
  let fmt := Sample.format_fixed 2 in
  let ri := Cases.risk (Detector._detect_insomnia Detector.__init__ df) in
  let rr := Cases.risk (Detector._detect_irregular_rhythm sqrt fmt Detector.__init__ df) in
  let rd := Cases.risk (Detector._detect_delayed_sleep Detector.__init__ df) in
  Detector._detect_insomnia Detector.__init__ df = Ok ri /\
  Detector._detect_irregular_rhythm sqrt fmt Detector.__init__ df = Ok rr /\
  Detector._detect_delayed_sleep Detector.__init__ df = Ok rd /\
  returns (Detector.analyze_sleep_patterns sqrt fmt Detector.__init__ df)
    (fun results =>
       Detector.detected_disorders results =
         named "Insomnia" ri ++ named "Irregular Sleep-Wake Rhythm" rr
           ++ named "Delayed Sleep Phase" rd /\
       length (Detector.recommendations results)
       = (4 * length (Detector.detected_disorders results))%nat).
Proof.
  intros df sqrt fmt ri rr rd.
  assert (Hi : Detector._detect_insomnia Detector.__init__ df = Ok ri)
    by (vm_compute; reflexivity).
  assert (Hr : Detector._detect_irregular_rhythm sqrt fmt Detector.__init__ df = Ok rr)
    by (vm_compute; reflexivity).
  assert (Hd : Detector._detect_delayed_sleep Detector.__init__ df = Ok rd)
    by (vm_compute; reflexivity).
  split; [exact Hi|]. split; [exact Hr|]. split; [exact Hd|].
  eapply returns_impl;
    [|exact (analyze_reports_positive_risks sqrt fmt Detector.__init__ df ri rr rd Hi Hr Hd)].
  intros results (Hnames & _ & _ & _ & _ & Hrecs). split; [exact Hnames | exact Hrecs].
Defined.

Lemma recommendations_by_membership_witness :
  let l1 := ["Delayed Sleep Phase"; "Insomnia"; "Insomnia"; "Snoring"] in
  let l2 := ["Insomnia"; "Delayed Sleep Phase"] in
  (forall name, In name all_disorders -> (In name l1 <-> In name l2)) /\
  Detector._generate_recommendations l1 = Detector._generate_recommendations l2 /\
  length (Detector._generate_recommendations l1)
  = (4 * length (filter (fun name => name ∈ l1) all_disorders))%nat.
Proof.
  intros l1 l2.
  assert (Hsame : forall name, In name all_disorders -> (In name l1 <-> In name l2)).
  { intros name Hin. unfold all_disorders in Hin. simpl in Hin.
    destruct Hin as [<-|[<-|[<-|[]]]]; simpl; split; intros H;
      repeat (destruct H as [H|H]; try discriminate H); tauto. }
  split; [exact Hsame|].
  exact (recommendations_by_membership l1 l2 Hsame).
Defined.


Lemma analyze_needs_processed_table_witness :
  columns Sample.sample_csv !! "duration" = None /\
  Detector.analyze_sleep_patterns Sample.sqrt9 (Sample.format_fixed 2)
    Detector.__init__ Sample.sample_csv = Raise (KeyError "duration").
Proof.
  assert (H : columns Sample.sample_csv !! "duration" = None) by (vm_compute; reflexivity).
  split; [exact H|].
  exact (analyze_needs_processed_table Sample.sqrt9 (Sample.format_fixed 2)
           Detector.__init__ Sample.sample_csv H).
Defined.

Lemma detector_scores_are_rule_sums_witness :
  feature_table Sample.ten_nights /\
  returns (Detector._detect_insomnia Detector.__init__ Sample.ten_nights)
    (fun r => (Detector.risk_level r == 0 /\ Detector.confidence r == 0) \/
              (Detector.risk_level r == 0.4 /\ Detector.confidence r == 0.3) \/
              (Detector.risk_level r == 0.3 /\ Detector.confidence r == 0.3) \/
              (Detector.risk_level r == 0.7 /\ Detector.confidence r == 0.6)).
Proof.
  assert (Hft : feature_table Sample.ten_nights) by (vm_compute; reflexivity).
  split; [exact Hft|].
  exact (proj1 (detector_scores_are_rule_sums Sample.sqrt9 (Sample.format_fixed 2)
                  Detector.__init__ Sample.ten_nights Hft)).
Defined.

Lemma quiet_nights_report_nothing_witness :
  let df := Sample.sample_features in
  (0 < index_len df)%nat /\
  Forall (fun v => fgeb v (F 6.0) = true) (Sample.numbers df "duration") /\
  Forall (fun v => fgeb v (F 70) = true) (Sample.numbers df "quality") /\
  Forall (fun t => (hour_of t < 9)%Z) (Sample.times df "sleep_end") /\
  fgtb (std_values Sample.sqrt9 (hours (Sample.times df "sleep_start"))) (F 1.5) = false /\
  fgtb (std_values Sample.sqrt9 (hours (Sample.times df "sleep_end"))) (F 1.5) = false /\
  Detector.analyze_sleep_patterns Sample.sqrt9 (Sample.format_fixed 2) Detector.__init__ df
  = Ok {| Detector.detected_disorders := []; Detector.risk_levels := ∅;
          Detector.recommendations := [] |}.
Proof.
  intros df.
  assert (Hrows : (0 < index_len df)%nat) by (vm_compute; lia).
  assert (Hlong : Forall (fun v => fgeb v (F 6.0) = true) (Sample.numbers df "duration"))
    by (vm_compute; repeat constructor).
  assert (Hgood : Forall (fun v => fgeb v (F 70) = true) (Sample.numbers df "quality"))
    by (vm_compute; repeat constructor).
  assert (Hearly : Forall (fun t => (hour_of t < 9)%Z) (Sample.times df "sleep_end")).
  { let l := eval vm_compute in (Sample.times df "sleep_end") in
    change (Sample.times df "sleep_end") with l.
    repeat (constructor; [vm_compute; reflexivity|]). constructor. }
  assert (Hstd1 : fgtb (std_values Sample.sqrt9 (hours (Sample.times df "sleep_start")))
                    (F 1.5) = false) by (vm_compute; reflexivity).
  assert (Hstd2 : fgtb (std_values Sample.sqrt9 (hours (Sample.times df "sleep_end")))
                    (F 1.5) = false) by (vm_compute; reflexivity).
  split; [exact Hrows|]. split; [exact Hlong|]. split; [exact Hgood|].
  split; [exact Hearly|]. split; [exact Hstd1|]. split; [exact Hstd2|].
  apply (quiet_nights_report_nothing Sample.sqrt9 (Sample.format_fixed 2) df
           (Sample.numbers df "duration") (Sample.numbers df "quality")
           (Sample.times df "sleep_start") (Sample.times df "sleep_end") Hrows);
    try assumption; vm_compute; reflexivity.
Defined.

Lemma evidence_iff_risk_witness :
  feature_table Sample.ten_nights /\
  returns (Detector._detect_insomnia Detector.__init__ Sample.ten_nights)
    (fun r => (Detector.evidence r = [] <-> Detector.risk_level r == 0) /\
              (Detector.risk_level r == 0 <-> Detector.confidence r == 0) /\
              (length (Detector.evidence r) <= 2)%nat).
Proof.
  assert (Hft : feature_table Sample.ten_nights) by (vm_compute; reflexivity).
  split; [exact Hft|].
  exact (proj1 (evidence_iff_risk Sample.sqrt9 (Sample.format_fixed 2)
                  Detector.__init__ Sample.ten_nights Hft)).
Defined.


Lemma late_bedtime_rule_silent_witness :
  let df := Sample.ten_nights in
  feature_table df /\ (0 < index_len df)%nat /\
  columns df !! "sleep_end" = Some (DatetimeS (Sample.times df "sleep_end")) /\
  returns (Detector._detect_delayed_sleep Detector.__init__ df)
    (scored false (Detector.at_least (count_from 9 (Sample.times df "sleep_end")) df 0.4)
       0.4 0.3 0.4 0.3).
Proof.
  intros df.
  assert (Hft : feature_table df) by (vm_compute; reflexivity).
  assert (Hrows : (0 < index_len df)%nat) by (vm_compute; lia).
  assert (He : columns df !! "sleep_end" = Some (DatetimeS (Sample.times df "sleep_end")))
    by (vm_compute; reflexivity).
  split; [exact Hft|]. split; [exact Hrows|]. split; [exact He|].
  exact (late_bedtime_rule_silent df (Sample.times df "sleep_end") Hft Hrows He).
Defined.


Lemma single_night_is_called_irregular_witness :
  feature_table Cases.one_night /\ (index_len Cases.one_night < 2)%nat /\
  returns (Analyzer.bedtime_std Sample.sqrt9 Cases.one_night)
    (fun time_std => Analyzer.get_consistency_interpretation time_std
                     = "Highly irregular sleep schedule").
Proof.
  assert (Hft : feature_table Cases.one_night) by (vm_compute; reflexivity).
  assert (Hshort : (index_len Cases.one_night < 2)%nat) by (vm_compute; lia).
  split; [exact Hft|]. split; [exact Hshort|].
  exact (single_night_is_called_irregular Sample.sqrt9 Cases.one_night Hft Hshort).
Defined.

Lemma analysis_of_no_rows_raises_witness :
  feature_table Sample.no_features /\ index_len Sample.no_features = 0%nat /\
  raises (Analyzer.perform_statistical_analysis Sample.sqrt9 Sample.format_fixed
            Cases.nan_statistic Cases.nan_statistic Cases.nan_statistic
            Cases.no_day Cases.no_day Cases.nan_corr Sample.no_features) = true.
Proof.
  assert (Hft : feature_table Sample.no_features) by (vm_compute; reflexivity).
  assert (Hzero : index_len Sample.no_features = 0%nat) by (vm_compute; reflexivity).
  split; [exact Hft|]. split; [exact Hzero|].
  exact (analysis_of_no_rows_raises Sample.sqrt9 Sample.format_fixed
           Cases.nan_statistic Cases.nan_statistic Cases.nan_statistic
           Cases.no_day Cases.no_day Cases.nan_corr Sample.no_features Hft Hzero).
Defined.

Lemma optimal_iff_efficiency_100_witness :
  let m := Cases.value
             {| Analyzer.avg_duration := NaN; Analyzer.efficiency := NaN;
                Analyzer.avg_latency := NaN; Analyzer.quality_score := NaN;
                Analyzer.consistency := NaN |}
             (Analyzer.calculate_sleep_metrics Sample.sqrt9 Sample.sample_features) in
  Analyzer.calculate_sleep_metrics Sample.sqrt9 Sample.sample_features = Ok m /\
  (Analyzer.get_duration_interpretation (Analyzer.avg_duration m)
   = "Optimal sleep duration achieved"
   <-> fgeb (Analyzer.efficiency m) (F 100) = true).
Proof.
  intros m.
  assert (Hm : Analyzer.calculate_sleep_metrics Sample.sqrt9 Sample.sample_features = Ok m)
    by (vm_compute; reflexivity).
  split; [exact Hm|].
  exact (optimal_iff_efficiency_100 Sample.sqrt9 Sample.sample_features m Hm).
Defined.

Lemma buckets_count_numbers_witness :
  columns Cases.missing_quality !! "quality" = Some (NumS [F 85; NaN]) /\
  exists excellent good fair poor : nat,
    Analyzer.quality_distribution Cases.missing_quality =
      Ok {| Analyzer.Excellent := pretty excellent +:+ " nights";
            Analyzer.Good := pretty good +:+ " nights";
            Analyzer.Fair := pretty fair +:+ " nights";
            Analyzer.Poor := pretty poor +:+ " nights" |} /\
    (excellent + good + fair + poor = 1)%nat.
Proof.
  assert (Hq : columns Cases.missing_quality !! "quality" = Some (NumS [F 85; NaN]))
    by (vm_compute; reflexivity).
  split; [exact Hq|].
  exact (buckets_count_numbers Cases.missing_quality [F 85; NaN] Hq).
Defined.

(** ** The detector beside the statistics

    The dashboard shows the report of the detector and the statistical
    analysis of the same table; the two read the same columns with the
    same thresholds. *)

Section DetectorBesideStatistics.
Import Analyzer Detector.
Variable sqrt : Q -> Q.
Variable format_2f : float64 -> string.

(** The nights that the quality distribution counts under 'Poor (<70)'
    are the nights the insomnia detector counts as low quality: its
    second rule fires exactly when the poor nights are at least three
    tenths of the rows. *)
Theorem poor_nights_drive_the_insomnia_rule (df : DataFrame)
    (durations qualities : list float64) :
  columns df !! "duration" = Some (NumS durations) ->
  columns df !! "quality" = Some (NumS qualities) ->
  exists poor : nat,
    returns (quality_distribution df) (fun d => Poor d = pretty poor +:+ " nights") /\
    returns (_detect_insomnia __init__ df)
      (scored (at_least (count_below 6.0 durations) df 0.3) (at_least poor df 0.3)
              0.4 0.3 0.3 0.3).
Proof.
  intros Hd Hq. exists (count_below 70 qualities). split.
  - unfold quality_distribution, getitem. rewrite Hq.
    cbn [mbind result_bind series_ge series_lt series_cmp returns Poor].
    unfold nights_where. rewrite len_where_map. reflexivity.
  - exact (detect_insomnia_scored __init__ df durations qualities Hd Hq).
Qed.


End DetectorBesideStatistics.

Lemma poor_nights_drive_the_insomnia_rule_witness :
  let df := Sample.ten_nights in
  columns df !! "duration" = Some (NumS (Sample.numbers df "duration")) /\
  columns df !! "quality" = Some (NumS (Sample.numbers df "quality")) /\
  exists poor : nat,
    returns (Analyzer.quality_distribution df)
      (fun d => Analyzer.Poor d = pretty poor +:+ " nights") /\
    returns (Detector._detect_insomnia Detector.__init__ df)
      (scored (Detector.at_least (count_below 6.0 (Sample.numbers df "duration")) df 0.3)
              (Detector.at_least poor df 0.3) 0.4 0.3 0.3 0.3).
Proof.
  intros df.
  assert (Hd : columns df !! "duration" = Some (NumS (Sample.numbers df "duration")))
    by (vm_compute; reflexivity).
  assert (Hq : columns df !! "quality" = Some (NumS (Sample.numbers df "quality")))
    by (vm_compute; reflexivity).
  split; [exact Hd|]. split; [exact Hq|].
  exact (poor_nights_drive_the_insomnia_rule df _ _ Hd Hq).
Defined.


(** ** The report as [main] reads it

    [main] walks through [detected_disorders] and looks each name up in
    [risk_levels]. *)

Section ReportLookups.
Import Detector.
Variable sqrt : Q -> Q.
Variable format_2f : float64 -> string.

(** The names listed are the keys stored, and what is stored has a
    positive risk level. *)
Definition consistent (results : Results) : Prop :=
  (forall disorder, In disorder (detected_disorders results)
                    <-> is_Some (risk_levels results !! disorder)) /\
  (forall disorder risk, risk_levels results !! disorder = Some risk -> 0 < risk_level risk).

Lemma record_risk_consistent (name : string) (risk : Risk) (results : Results) :
  consistent results -> consistent (record_risk name risk results).
Proof.
  intros [Hnames Hrisks]. unfold record_risk.
  destruct (Qltb 0 (risk_level risk)) eqn:Epos; [|by split].
  apply Qltb_true in Epos. split; cbn [detected_disorders risk_levels].
  - intros disorder. rewrite in_app_iff, Hnames. cbn [In].
    destruct (decide (name = disorder)) as [->|Hne].
    + rewrite lookup_insert_eq. split; [by eauto|]. intros _. right. by left.
    + rewrite lookup_insert_ne by exact Hne. split; [|by left].
      intros [H|[H|[]]]; [exact H | contradiction].
  - intros disorder r.
    destruct (decide (name = disorder)) as [->|Hne].
    + rewrite lookup_insert_eq. intros [= <-]. exact Epos.
    + rewrite lookup_insert_ne by exact Hne. apply Hrisks.
Qed.

(** Whatever the table, in the results that [analyze_sleep_patterns]
    returns every name in [detected_disorders] is a key of [risk_levels]
    and every key is listed, so that the lookup [risk_levels[disorder]]
    of [main] finds its entry; and every stored entry has a positive
    risk level. *)
Theorem detected_disorders_have_risk_info
    (self : SleepDisorderDetector) (df : DataFrame) (results : Results) :
  analyze_sleep_patterns sqrt format_2f self df = Ok results ->
  (forall disorder, In disorder (detected_disorders results)
                    <-> is_Some (risk_levels results !! disorder)) /\
  (forall disorder risk, risk_levels results !! disorder = Some risk ->
                         0 < risk_level risk).
Proof.
  unfold analyze_sleep_patterns.
  destruct (_detect_insomnia self df) as [ri|]; [|discriminate].
  destruct (_detect_irregular_rhythm sqrt format_2f self df) as [rr|]; [|discriminate].
  destruct (_detect_delayed_sleep self df) as [rd|]; [|discriminate].
  cbn [mbind result_bind]. intros [= <-]. cbn [detected_disorders risk_levels].
  set (recorded := record_risk _ _ _).
  change (consistent recorded). subst recorded.
  apply record_risk_consistent, record_risk_consistent, record_risk_consistent.
  split; cbn [detected_disorders risk_levels In].
  - intros disorder. rewrite lookup_empty. split; [tauto|]. by intros [? ?].
  - intros disorder risk. by rewrite lookup_empty.
Qed.

End ReportLookups.

Lemma detected_disorders_have_risk_info_witness :
  let results :=
    Cases.value
      {| Detector.detected_disorders := []; Detector.risk_levels := ∅;
         Detector.recommendations := [] |}
      (Detector.analyze_sleep_patterns Sample.sqrt9 (Sample.format_fixed 2)
         Detector.__init__ Sample.ten_nights) in
  Detector.analyze_sleep_patterns Sample.sqrt9 (Sample.format_fixed 2)
    Detector.__init__ Sample.ten_nights = Ok results /\
  (forall disorder, In disorder (Detector.detected_disorders results)
                    <-> is_Some (Detector.risk_levels results !! disorder)) /\
  (forall disorder risk, Detector.risk_levels results !! disorder = Some risk ->
                         0 < Detector.risk_level risk).
Proof.
  intros results.
  assert (Hresults : Detector.analyze_sleep_patterns Sample.sqrt9 (Sample.format_fixed 2)
                       Detector.__init__ Sample.ten_nights = Ok results)
    by (vm_compute; reflexivity).
  split; [exact Hresults|].
  exact (detected_disorders_have_risk_info Sample.sqrt9 (Sample.format_fixed 2)
           Detector.__init__ Sample.ten_nights results Hresults).
Defined.

(** ** The latency *)

Section Latency.
Import Processor.
Variable parse_datetime : string -> option Z.
Variable number_datetime : float64 -> option Z.

Lemma minutes_late_exact (date sleep_start : Z) :
  minutes_late date sleep_start * inject_Z (60 * ns_per_second)
  == inject_Z (sleep_start - (date - date mod ns_per_day + 22 * ns_per_hour)).
Proof.
  unfold minutes_late.
  assert (E : inject_Z (60 * ns_per_second) == 60 * inject_Z ns_per_second)
    by (vm_compute; reflexivity).
  rewrite E. field. vm_compute. discriminate.
Qed.

(** The latency of a night is the time in minutes from 22:00 on the day
    of its [date] to its [sleep_start]. It is negative exactly when the
    bedtime lies before 22:00 of that day, and for a bedtime on the day
    of the [date] it lies between -1320 and 120 minutes. *)
Theorem latency_counts_from_22_00 (df features : DataFrame)
    (i : nat) (date sleep_start : Z) (dates starts : list Z) :
  process_sleep_data parse_datetime number_datetime df = Ok features ->
  columns features !! "date" = Some (DatetimeS dates) ->
  columns features !! "sleep_start" = Some (DatetimeS starts) ->
  dates !! i = Some date ->
  starts !! i = Some sleep_start ->
  let midnight := (date - date mod ns_per_day)%Z in
  exists (latencies : list float64) (m : Q),
    columns features !! "latency" = Some (NumS latencies) /\
    latencies !! i = Some (F m) /\
    m * inject_Z (60 * ns_per_second)
      == inject_Z (sleep_start - (midnight + 22 * ns_per_hour)) /\
    (m < 0 <-> (sleep_start < midnight + 22 * ns_per_hour)%Z) /\
    ((midnight <= sleep_start < midnight + ns_per_day)%Z -> -1320 <= m /\ m < 120).
Proof.
  intros Hp Hcd Hcs Hd Hs midnight.
  destruct (process_sleep_data_inv parse_datetime number_datetime df features Hp)
    as (d & s & e & dates' & starts' & ends' & q & _ & _ & _ & _ & _ & _ & _ & ->).
  destruct (features_of_columns dates' starts' ends' q df) as (_ & Hcs' & _ & _ & Hcl & _).
  rewrite Hcs' in Hcs. injection Hcs as ->.
  assert (Hcd' : columns (features_of dates' starts ends' q df) !! "date"
                 = Some (DatetimeS dates')).
  { unfold features_of. cbn [setitem columns].
    repeat first [ apply lookup_insert_eq | rewrite lookup_insert_ne by discriminate ]. }
  rewrite Hcd' in Hcd. injection Hcd as ->.
  exists (map F (zip_with minutes_late dates starts)), (minutes_late date sleep_start).
  split; [exact Hcl|]. split.
  { rewrite list_lookup_fmap, lookup_zip_with, Hd. simpl. rewrite Hs. reflexivity. }
  pose proof (minutes_late_exact date sleep_start) as Hx. fold midnight in Hx.
  split; [exact Hx|].
  set (m := minutes_late date sleep_start) in *.
  set (minute := inject_Z (60 * ns_per_second)) in *.
  assert (Hpos : 0 < minute) by (vm_compute; reflexivity).
  set (bedtime := (midnight + 22 * ns_per_hour)%Z) in *.
  split; [split|].
  - intros Hneg. apply Z.lt_sub_0. rewrite Zlt_Qlt. rewrite <- Hx.
    change (inject_Z 0) with 0. nra.
  - intros Hlt. apply Z.lt_sub_0 in Hlt. rewrite Zlt_Qlt in Hlt. rewrite <- Hx in Hlt.
    change (inject_Z 0) with 0 in Hlt. nra.
  - intros [Hlo Hhi].
    assert (H22 : (22 * ns_per_hour = 1320 * (60 * ns_per_second))%Z)
      by (vm_compute; reflexivity).
    assert (H24 : (ns_per_day = 1440 * (60 * ns_per_second))%Z)
      by (vm_compute; reflexivity).
    assert (Hlo' : (- (1320 * (60 * ns_per_second)) <= sleep_start - bedtime)%Z)
      by (unfold bedtime; lia).
    assert (Hhi' : (sleep_start - bedtime < 120 * (60 * ns_per_second))%Z)
      by (unfold bedtime; lia).
    rewrite Zle_Qle in Hlo'. rewrite Zlt_Qlt in Hhi'.
    rewrite <- Hx in Hlo', Hhi'.
    rewrite inject_Z_opp, inject_Z_mult in Hlo'. rewrite inject_Z_mult in Hhi'.
    fold minute in Hlo', Hhi'.
    change (inject_Z 1320) with 1320 in Hlo'. change (inject_Z 120) with 120 in Hhi'.
    split; nra.
Qed.

End Latency.

Lemma latency_counts_from_22_00_witness :
  let dates := Sample.times Sample.sample_features "date" in
  let starts := Sample.times Sample.sample_features "sleep_start" in
  let midnight := (1672531200000000000 - 1672531200000000000 mod ns_per_day)%Z in
  Sample.process Sample.sample_csv = Ok Sample.sample_features /\
  dates !! 0%nat = Some 1672531200000000000%Z /\
  starts !! 0%nat = Some 1672614000000000000%Z /\
  exists (latencies : list float64) (m : Q),
    columns Sample.sample_features !! "latency" = Some (NumS latencies) /\
    latencies !! 0%nat = Some (F m) /\
    m * inject_Z (60 * ns_per_second)
      == inject_Z (1672614000000000000 - (midnight + 22 * ns_per_hour)) /\
    (m < 0 <-> (1672614000000000000 < midnight + 22 * ns_per_hour)%Z) /\
    ((midnight <= 1672614000000000000 < midnight + ns_per_day)%Z -> -1320 <= m /\ m < 120).
Proof.
  intros dates starts midnight.
  assert (Hp : Sample.process Sample.sample_csv = Ok Sample.sample_features)
    by (vm_compute; reflexivity).
  assert (Hd : dates !! 0%nat = Some 1672531200000000000%Z) by (vm_compute; reflexivity).
  assert (Hs : starts !! 0%nat = Some 1672614000000000000%Z) by (vm_compute; reflexivity).
  split; [exact Hp|]. split; [exact Hd|]. split; [exact Hs|].
  apply (latency_counts_from_22_00 Sample.iso_datetime Sample.epoch_nanoseconds
           Sample.sample_csv Sample.sample_features 0 _ _ dates starts Hp);
    try exact Hd; try exact Hs; vm_compute; reflexivity.
Defined.

(** * The rules in binary64

    The detector computes [len(df) * 0.3] and its score sums in IEEE 754
    binary64. The model above is exact; this part evaluates the same
    expressions with the specification of binary64 arithmetic of the
    standard library ([SpecFloat], precision 53, rounding to nearest
    even) and compares. *)

Module Binary64.

Definition prec : Z := 53.
Definition emax : Z := 1024.

(** [float(z)] *)
Definition of_int (z : Z) : spec_float := binary_normalize prec emax z 0 false.

(** A decimal literal: the double nearest to the rational it denotes
    (numerator and denominator are exact, the division rounds once). *)
Definition literal (q : Q) : spec_float :=
  SFdiv prec emax (of_int (Qnum q)) (of_int (Zpos (Qden q))).

Definition mul : spec_float -> spec_float -> spec_float := SFmul prec emax.
Definition add : spec_float -> spec_float -> spec_float := SFadd prec emax.

(** [z >= x] for a Python int [z] and a float [x]: Python compares the
    two numbers exactly. *)
Definition int_ge (z : Z) (x : spec_float) : bool :=
  match x with
  | S754_zero _ => (0 <=? z)%Z
  | S754_finite s m e =>
    let v := if s then Zneg m else Zpos m in
    if (0 <=? e)%Z then (v * 2 ^ e <=? z)%Z else (v <=? z * 2 ^ (- e))%Z
  | S754_infinity s => s
  | S754_nan => false
  end.

(** [days >= rows * x] for Python ints [days] and [rows] and a float
    [x]: the product is rounded, the comparison is exact. *)
Definition int_ge_product (days rows : Z) (x : spec_float) : bool :=
  int_ge days (mul (of_int rows) x).

(** [days >= rows * share] as the detector evaluates it. *)
Definition at_least (days rows : Z) (share : Q) : bool :=
  int_ge_product days rows (literal share).

(** The smallest number of days that is at least [share] of [rows]. *)
Definition least_days (rows : Z) (share : Q) : Z :=
  Qceiling (inject_Z rows * share).

(** The binary64 test against the double [x] is false just below
    [least_days] and true at it. *)
Definition switches_at_least_days (share : Q) (x : spec_float) (rows : Z) : bool :=
  int_ge_product (least_days rows share) rows x &&
  negb (int_ge_product (least_days rows share - 1) rows x).

(** The test switches there for [count] tables in a row, from [rows] on. *)
Fixpoint switches_from (share : Q) (x : spec_float) (count : nat) (rows : Z) : bool :=
  match count with
  | O => true
  | S count' =>
    switches_at_least_days share x rows && switches_from share x count' (rows + 1)
  end.

(** The largest table for which the switch is checked below. *)
Definition checked_rows : nat := Z.to_nat 36500.

(** [x > y] and [min(x, 1.0)] on floats *)
Definition gt (x y : spec_float) : bool := SFltb y x.
Definition min_one (x : spec_float) : spec_float :=
  if SFltb (literal 1.0) x then literal 1.0 else x.

(** The score of two rules with increments [da] and [db]. *)
Definition score (a b : bool) (da db : Q) : spec_float :=
  let r := of_int 0 in
  let r := if a then add r (literal da) else r in
  let r := if b then add r (literal db) else r in
  r.

End Binary64.


Section Binary64Facts.
Import Binary64.

Lemma int_ge_mono (z z' : Z) (x : spec_float) :
  (z <= z')%Z -> int_ge z x = true -> int_ge z' x = true.
Proof.
  intros Hle. destruct x as [s|s| |s m e]; simpl; try (intros H; exact H).
  - intros H. apply Z.leb_le in H. apply Z.leb_le. lia.
  - destruct (0 <=? e)%Z.
    + intros H. apply Z.leb_le in H. apply Z.leb_le. lia.
    + intros H. apply Z.leb_le in H. apply Z.leb_le.
      assert (0 <= 2 ^ (- e))%Z by (apply Z.pow_nonneg; lia). nia.
Qed.

Lemma switches_from_spec (share : Q) (x : spec_float) (count : nat) (first rows : Z) :
  switches_from share x count first = true ->
  (first <= rows < first + Z.of_nat count)%Z ->
  switches_at_least_days share x rows = true.
Proof.
  revert first. induction count as [|count IH]; intros first Hall Hrange; [lia|].
  cbn [switches_from] in Hall. apply andb_true_iff in Hall as [Hfirst Hrest].
  destruct (Z.eq_dec rows first) as [->|Hne]; [exact Hfirst|].
  apply (IH (first + 1)%Z Hrest). lia.
Qed.

(** Where the binary64 test switches at [least_days], it is the exact
    test. *)
Lemma switch_is_exact (share : Q) (x : spec_float) (days rows : Z) :
  switches_at_least_days share x rows = true ->
  int_ge_product days rows x = Qle_bool (inject_Z rows * share) (inject_Z days).
Proof.
  intros Hswitch. apply andb_true_iff in Hswitch as [Hat Hbelow].
  apply negb_true_iff in Hbelow. unfold least_days in *.
  set (exact := inject_Z rows * share) in *.
  destruct (Qle_bool exact (inject_Z days)) eqn:E.
  - apply Qle_bool_iff in E.
    apply (int_ge_mono (Qceiling exact)); [|exact Hat].
    pose proof (Qceiling_lt exact) as Hlt.
    assert (inject_Z (Qceiling exact - 1) < inject_Z days) as H by lra.
    rewrite <- Zlt_Qlt in H. lia.
  - destruct (int_ge_product days rows x) eqn:Hge; [|reflexivity].
    exfalso.
    assert (Hlt : inject_Z days < exact).
    { apply Qnot_le_lt. intros Hle. apply Qle_bool_iff in Hle. congruence. }
    pose proof (Qle_ceiling exact) as Hceil.
    assert (inject_Z days < inject_Z (Qceiling exact)) as H by lra.
    rewrite <- Zlt_Qlt in H.
    assert (Hup : int_ge_product (Qceiling exact - 1) rows x = true).
    { apply (int_ge_mono days); [lia | exact Hge]. }
    congruence.
Qed.

Lemma switches_30_percent :
  switches_from 0.3 (literal 0.3) (S checked_rows) 0 = true.
Proof. vm_compute. reflexivity. Qed.

Lemma switches_40_percent :
  switches_from 0.4 (literal 0.4) (S checked_rows) 0 = true.
Proof. vm_compute. reflexivity. Qed.

(** Rounding does not change a rule. For a table of up to 36500 rows,
    the test [days >= len(df) * 0.3] that the detector evaluates in
    binary64 holds exactly when the number of days is at least three
    tenths of the number of rows, and likewise with 0.4: the rounded
    product never moves the threshold across a whole number of days. *)
Theorem rounding_leaves_the_rules (df : DataFrame) (days : nat) :
  (index_len df <= checked_rows)%nat ->
  at_least (Z.of_nat days) (Z.of_nat (index_len df)) 0.3 = Detector.at_least days df 0.3 /\
  at_least (Z.of_nat days) (Z.of_nat (index_len df)) 0.4 = Detector.at_least days df 0.4.
Proof.
  intros Hrows. unfold at_least, Detector.at_least, of_nat. split.
  - apply switch_is_exact. apply (switches_from_spec _ _ _ 0 _ switches_30_percent). lia.
  - apply switch_is_exact. apply (switches_from_spec _ _ _ 0 _ switches_40_percent). lia.
Qed.

(** The scores in binary64. Whichever rules fire, the sum of their
    increments that the detector computes in binary64 is the double
    nearest to the exact sum, it is positive exactly when a rule fired,
    and the cap at 1.0 leaves it as it is. *)
Theorem scores_in_binary64 (a b : bool) (da db : Q) :
  In (da, db) [(0.4, 0.3); (0.3, 0.3); (0.5, 0.3); (0.4, 0.4)] ->
  score a b da db = literal ((if a then da else 0) + (if b then db else 0)) /\
  min_one (score a b da db) = score a b da db /\
  gt (score a b da db) (of_int 0) = a || b.
Proof.
  intros Hin. simpl in Hin.
  destruct Hin as [[= <- <-]|[[= <- <-]|[[= <- <-]|[[= <- <-]|[]]]]];
    destruct a, b; vm_compute; repeat split; reflexivity.
Qed.

End Binary64Facts.

Lemma rounding_leaves_the_rules_witness :
  (index_len Sample.ten_nights <= Binary64.checked_rows)%nat /\
  Binary64.at_least 3 (Z.of_nat (index_len Sample.ten_nights)) 0.3
  = Detector.at_least 3 Sample.ten_nights 0.3 /\
  Binary64.at_least 4 (Z.of_nat (index_len Sample.ten_nights)) 0.4
  = Detector.at_least 4 Sample.ten_nights 0.4.
Proof.
  assert (Hrows : (index_len Sample.ten_nights <= Binary64.checked_rows)%nat).
  { apply Nat.leb_le. vm_compute. reflexivity. }
  split; [exact Hrows|].
  split.
  - exact (proj1 (rounding_leaves_the_rules Sample.ten_nights 3 Hrows)).
  - exact (proj2 (rounding_leaves_the_rules Sample.ten_nights 4 Hrows)).
Defined.

Lemma scores_in_binary64_witness :
  In (0.4, 0.3) [(0.4, 0.3); (0.3, 0.3); (0.5, 0.3); (0.4, 0.4)] /\
  Binary64.score true true 0.4 0.3 = Binary64.literal (0.4 + 0.3) /\
  Binary64.min_one (Binary64.score true true 0.4 0.3) = Binary64.score true true 0.4 0.3 /\
  Binary64.gt (Binary64.score true true 0.4 0.3) (Binary64.of_int 0) = true.
Proof.
  assert (Hin : In (0.4, 0.3) [(0.4, 0.3); (0.3, 0.3); (0.5, 0.3); (0.4, 0.4)])
    by (left; reflexivity).
  split; [exact Hin|].
  exact (scores_in_binary64 true true 0.4 0.3 Hin).
Defined.
